(** * Response extraction, chat routes and tool dispatch of the assistant

    A shallow embedding of
    - [src/modules/assistant/routes.py] and [src/backend/assistant/routes.py]
      (response extraction, the meaningless filters, the [/assistant/chat]
      handlers), and
    - [src/modules/assistant/agent.py] (tool dispatch and the final answer of
      [ecommerce_assistant]).

    Python [str] values are modelled by [string]; a character is a code point
    below 256.  Python exceptions are values of [exn]; a function that may
    raise returns a [result].  Calls to collaborators that are not part of
    these files (the workflow, the tools, [json.loads], [repr]) are fields of
    a class, and every theorem holds for all their instances. *)

From Stdlib Require Import String Ascii List Bool NArith ZArith Lia.
Import ListNotations.
Open Scope string_scope.
Open Scope list_scope.
Set Warnings "-register-all".

(** ** Python string operations *)

Module PyStr.

(** [str.isspace] on one code point below 256: TAB..CR, FS..US, space,
    NEL and NBSP. *)
Definition isspace (c : ascii) : bool :=
  let n := N_of_ascii c in
  ((9 <=? n) && (n <=? 13) || (28 <=? n) && (n <=? 32)
   || (n =? 133) || (n =? 160))%N.

(** [str.lower] on one code point below 256: A..Z and the Latin-1 capitals
    0xC0..0xDE (0xD7, the multiplication sign, apart) move up by 32. *)
Definition lower_char (c : ascii) : ascii :=
  let n := N_of_ascii c in
  if ((65 <=? n) && (n <=? 90)
      || (192 <=? n) && (n <=? 222) && negb (n =? 215))%N
  then ascii_of_N (n + 32) else c.

Fixpoint lower (s : string) : string :=
  match s with
  | EmptyString => EmptyString
  | String c s' => String (lower_char c) (lower s')
  end.

Fixpoint lstrip (s : string) : string :=
  match s with
  | EmptyString => EmptyString
  | String c s' => if isspace c then lstrip s' else s
  end.

Fixpoint rstrip (s : string) : string :=
  match s with
  | EmptyString => EmptyString
  | String c s' =>
      match rstrip s' with
      | EmptyString => if isspace c then EmptyString else String c EmptyString
      | r => String c r
      end
  end.

(** [s.strip()] *)
Definition strip (s : string) : string := rstrip (lstrip s).

(** [s.startswith(p)] *)
Fixpoint startswith (s p : string) : bool :=
  match p, s with
  | EmptyString, _ => true
  | String _ _, EmptyString => false
  | String a p', String b s' => Ascii.eqb a b && startswith s' p'
  end.

(** [sub in s] *)
Fixpoint contains (sub s : string) : bool :=
  startswith s sub
  || match s with
     | EmptyString => false
     | String _ s' => contains sub s'
     end.

(** [s.endswith(p)] *)
Fixpoint endswith (s p : string) : bool :=
  String.eqb s p
  || match s with
     | EmptyString => false
     | String _ s' => endswith s' p
     end.

(** Truth value of a [str]: non-empty. *)
Definition truthy (s : string) : bool :=
  match s with EmptyString => false | String _ _ => true end.

End PyStr.

(** ** The regular expression [r".*_agent$"] *)

Module Re.

Definition newline : ascii := ascii_of_N 10.

(** [.*_agent] consuming all of [t]: [.] matches anything but a newline. *)
Definition dotstar_agent (t : string) : bool :=
  negb (PyStr.contains (String newline EmptyString) t)
  && PyStr.endswith t "_agent".

(** [t] when [s] is [t] followed by one final newline. *)
Fixpoint chop_final_newline (s : string) : option string :=
  match s with
  | EmptyString => None
  | String c EmptyString =>
      if Ascii.eqb c newline then Some EmptyString else None
  | String c s' =>
      match chop_final_newline s' with
      | Some t => Some (String c t)
      | None => None
      end
  end.

(** Truth value of [re.match(r".*_agent$", s)] for a [str] [s]: the match
    starts at the beginning, and [$] stands at the end of [s] or just
    before a newline that ends [s]. *)
Definition match_agent (s : string) : bool :=
  dotstar_agent s
  || match chop_final_newline s with
     | Some t => dotstar_agent t
     | None => false
     end.

End Re.

(** ** Python values, exceptions and attribute lookup *)

Module Py.

Inductive exn : Type :=
| TypeError
| AttributeError
| KeyError
| IndexError
| JSONDecodeError
| GraphRecursionError
| HTTPException (status_code : Z) (detail : string)
| Exception (msg : string).

(** Outcome of a call: a returned value or a raised exception. *)
Inductive result (A : Type) : Type :=
| Ok (a : A)
| Raise (e : exn).
Arguments Ok {A} a.
Arguments Raise {A} e.

(** An attribute of an object: not defined, holding [None], or holding a
    value. *)
Inductive attr (A : Type) : Type :=
| Absent
| IsNone
| Val (a : A).
Arguments Absent {A}.
Arguments IsNone {A}.
Arguments Val {A} a.

(** [getattr(obj, "a", default)]: the default is used only when the
    attribute is not defined; an attribute holding [None] yields [None]. *)
Definition getattr {A : Type} (a : attr A) (default : A) : option A :=
  match a with
  | Absent => Some default
  | IsNone => None
  | Val v => Some v
  end.

(** JSON-like values; a dict keeps its items in insertion order. *)
Inductive value : Type :=
| PyNone
| PyBool (b : bool)
| PyInt (z : Z)
| PyStr (s : string)
| PyList (l : list value)
| PyDict (d : list (string * value)).

Definition dict := list (string * value).

Definition truthy (v : value) : bool :=
  match v with
  | PyNone => false
  | PyBool b => b
  | PyInt z => negb (z =? 0)%Z
  | PyStr s => PyStr.truthy s
  | PyList l => match l with [] => false | _ => true end
  | PyDict d => match d with [] => false | _ => true end
  end.

(** [d[k]] when present. *)
Fixpoint lookup (k : string) (d : dict) : option value :=
  match d with
  | [] => None
  | (k', v) :: d' => if String.eqb k k' then Some v else lookup k d'
  end.

(** [k in d] *)
Definition mem (k : string) (d : dict) : bool :=
  match lookup k d with Some _ => true | None => false end.

(** [v.get(k, default)]: only a dict has [get]. *)
Definition get (v : value) (k : string) (default : value) : result value :=
  match v with
  | PyDict d =>
      Ok (match lookup k d with Some x => x | None => default end)
  | _ => Raise AttributeError
  end.

(** [v[k]] for a string key [k]. *)
Definition getitem (v : value) (k : string) : result value :=
  match v with
  | PyDict d =>
      match lookup k d with Some x => Ok x | None => Raise KeyError end
  | _ => Raise TypeError
  end.

(** [v[0]] *)
Definition index0 (v : value) : result value :=
  match v with
  | PyList [] => Raise IndexError
  | PyList (x :: _) => Ok x
  | PyStr EmptyString => Raise IndexError
  | PyStr (String c _) => Ok (PyStr (String c EmptyString))
  | PyDict _ => Raise KeyError
  | _ => Raise TypeError
  end.

(** [v == s] for a [str] literal [s]. *)
Definition eq_str (v : value) (s : string) : bool :=
  match v with
  | PyStr t => String.eqb t s
  | _ => false
  end.

End Py.

Import Py.

(** ** Messages *)

Inductive MessageKind : Type :=
| AIMessage
| HumanMessage
| SystemMessage
| ToolMessage.

(** An element of a [tool_calls] list: an object with the attributes [name]
    and [arguments] (what [call_tools] builds for a legacy function call), or
    a plain dict (which has no attributes). *)
Inductive ToolCall : Type :=
| ToolCallObject (name arguments : value)
| ToolCallDict (entries : dict).

(** [tool_call] has the attributes [name] and [arguments]. *)
Definition is_object (tool_call : ToolCall) : bool :=
  match tool_call with
  | ToolCallObject _ _ => true
  | ToolCallDict _ => false
  end.

(** A chat message.  [tool_calls] is what [getattr(msg, "tool_calls", None)]
    yields: [None] when the attribute is not defined or holds [None]; an
    [AIMessage] of langchain_core always defines it. *)
Record Message : Type := mkMessage {
  kind : MessageKind;
  content : string;
  name : attr string;
  tool_calls : option (list ToolCall);
  additional_kwargs : dict
}.

(** [isinstance(msg, AIMessage)] *)
Definition isinstance_AIMessage (msg : Message) : bool :=
  match kind msg with AIMessage => true | _ => false end.

(** Truth value of [msg.tool_calls]. *)
Definition has_tool_calls (msg : Message) : bool :=
  match tool_calls msg with
  | Some (_ :: _) => true
  | _ => false
  end.

(** [ai(content, name=n)] and [human(content)] without a tool-call intent. *)
Definition ai (c : string) (n : attr string) : Message :=
  mkMessage AIMessage c n (Some []) [].

Definition human (c : string) : Message :=
  mkMessage HumanMessage c IsNone None [].

(** [for x in l: if cond(x): return x], where [cond] may raise. *)
Fixpoint find_raising {A : Type} (cond : A -> result bool) (l : list A)
  : result (option A) :=
  match l with
  | [] => Ok None
  | x :: l' =>
      match cond x with
      | Raise e => Raise e
      | Ok true => Ok (Some x)
      | Ok false => find_raising cond l'
      end
  end.

(** ** Response extraction and the meaningless filters *)

(** [is_meaningful], the filter local to [extract_final_response]
    (src/modules/assistant/routes.py:30-40, the same text at
    src/backend/assistant/routes.py:205-215). *)
Definition is_meaningful (msg : Message) : bool :=
  if negb (isinstance_AIMessage msg) || negb (PyStr.truthy (content msg))
  then false
  else
    let content := PyStr.lower (PyStr.strip (content msg)) in
    negb (has_tool_calls msg)
    && negb (PyStr.contains "transferred" content)
    && negb (PyStr.startswith content "transferring")
    && negb (PyStr.startswith content "if you have any further")
    && negb (PyStr.startswith content "i have successfully").

(** Truth value of [re.match(r".*_agent$", getattr(msg, "name", ""))]:
    [re.match] raises [TypeError] when it is given [None]. *)
Definition name_matches_agent (msg : Message) : result bool :=
  match getattr (name msg) "" with
  | Some n => Ok (Re.match_agent n)
  | None => Raise TypeError
  end.

(** The condition of the first loop of [extract_final_response]; [and]
    evaluates its operands from left to right and stops at the first false
    one. *)
Definition is_meaningful_agent_message (msg : Message) : result bool :=
  if isinstance_AIMessage msg then
    match name_matches_agent msg with
    | Raise e => Raise e
    | Ok true => Ok (is_meaningful msg)
    | Ok false => Ok false
    end
  else Ok false.

(** The condition of the third loop. *)
Definition is_nonempty_ai (msg : Message) : bool :=
  isinstance_AIMessage msg && PyStr.truthy (content msg).

Definition no_meaningful_response : string := "No meaningful response found.".

(** [extract_final_response] on [result.get("messages", [])]
    (src/modules/assistant/routes.py:42-58). *)
Definition extract_from_messages (messages : list Message) : result string :=
  match find_raising is_meaningful_agent_message (rev messages) with
  | Raise e => Raise e
  | Ok (Some msg) => Ok (PyStr.strip (content msg))
  | Ok None =>
      match find is_meaningful (rev messages) with
      | Some msg => Ok (PyStr.strip (content msg))
      | None =>
          match find is_nonempty_ai (rev messages) with
          | Some msg => Ok (PyStr.strip (content msg))
          | None => Ok no_meaningful_response
          end
      end
  end.

(** [is_meaningful_response] (src/backend/assistant/routes.py:25-34). *)
Definition is_meaningful_response (content : string) : bool :=
  let lower := PyStr.lower content in
  negb (PyStr.contains "transferring" lower)
  && negb (PyStr.contains "transferred" lower)
  && negb (PyStr.startswith lower "transferring back to")
  && negb (PyStr.startswith lower "successfully transferred")
  && negb (PyStr.startswith content "i have successfully")
  && negb (PyStr.startswith content "if you have any further").

(** Truth value of [is_valid_ai_message(message)]
    (src/backend/assistant/routes.py:57-63). *)
Definition is_valid_ai_message (message : Message) : result bool :=
  if isinstance_AIMessage message
     && PyStr.truthy (PyStr.strip (content message))
     && is_meaningful_response (content message)
  then name_matches_agent message
  else Ok false.

(** The filter of the specification read for a message of any origin:
    non-empty content, no pending tool-call intent, no handoff boilerplate. *)
Definition passes_filter_any_origin (msg : Message) : bool :=
  PyStr.truthy (content msg)
  && negb (has_tool_calls msg)
  && (let content := PyStr.lower (PyStr.strip (content msg)) in
      negb (PyStr.contains "transferred" content)
      && negb (PyStr.startswith content "transferring")
      && negb (PyStr.startswith content "if you have any further")
      && negb (PyStr.startswith content "i have successfully")).

(** ** State and exceptions *)

(** A computation over a state [S] that returns or raises; the state reached
    when an exception is raised is kept. *)
Definition M (S A : Type) : Type := S -> result A * S.

Definition ret {S A : Type} (a : A) : M S A := fun s => (Ok a, s).

Definition raise {S A : Type} (e : exn) : M S A := fun s => (Raise e, s).

Definition bind {S A B : Type} (c : M S A) (k : A -> M S B) : M S B :=
  fun s =>
    match c s with
    | (Ok a, s') => k a s'
    | (Raise e, s') => (Raise e, s')
    end.

(** A pure call that may raise. *)
Definition lift {S A : Type} (r : result A) : M S A := fun s => (r, s).

Notation "x <- c ;; k" := (bind c (fun x => k))
  (at level 61, c at next level, right associativity).

(** ** The [/assistant/chat] handlers *)

Module Interrupt.
(** An interrupt of the workflow: its [value], and an attribute [args]
    that [getattr(interrupt, "args", {})] looks for. *)
Record t : Type := mk { value : Py.value; args : attr Py.value }.
End Interrupt.

(** What [result["__interrupt__"]] holds. *)
Inductive InterruptEntry : Type :=
| InterruptList (l : list Interrupt.t)
| InterruptNotAList.

(** The dict returned by the workflow: the keys ["messages"] and
    ["__interrupt__"], each present or not. *)
Record WorkflowResult : Type := mkResult {
  result_messages : option (list Message);
  result_interrupt : option InterruptEntry
}.

(** Modelled from the spec: [ChatRequest] and [ChatResponse] of schema.py,
    which is not among the sources: the body [{session_id, message}] with a
    string session identifier ([None] when it is missing), and the answer
    [{response}]. *)
Record ChatRequest : Type := mkRequest {
  session_id : option string;
  message : string
}.

(** What a handler returns: a [ChatResponse], a [JSONResponse] with its
    status code (200 unless given) and content, or a [StreamingResponse] over
    the generator [stream_agent_response(user_input, "", session_id, False)],
    which has not run yet. *)
Inductive Response : Type :=
| ChatResponse (response : string)
| JSONResponse (status_code : Z) (content : value)
| StreamingResponse (user_input : string) (session_id : string).

(** Builtins whose text output is not modelled. *)
Class Builtins : Type := {
  (** [repr(v)] *)
  repr : value -> string;
  (** [str(e)] of an exception *)
  exn_str : exn -> string
}.

(** [str(v)] *)
Definition str `{Builtins} (v : value) : string :=
  match v with
  | PyStr s => s
  | _ => repr v
  end.

(** The workflow the handlers call. *)
Class Workflow : Type := {
  workflow_builtins :: Builtins;
  World : Type;
  (** [run_workflow(message, session_id)] of src/modules *)
  run_workflow : string -> string -> World -> result WorkflowResult * World;
  (** [run_workflow(message, command, session_id)] of src/backend *)
  run_workflow_command :
    string -> value -> string -> World -> result WorkflowResult * World
}.

(** The state a handler runs in: the world the workflow acts on (sessions,
    checkpoints, backend) and the log of workflow invocations. *)
Record Server `{Workflow} : Type := mkServer {
  world : World;
  invocations : list (string * string)
}.

Section Handlers.
Context `{W : Workflow}.

(** [extract_final_response(result)] *)
Definition extract_final_response (result : WorkflowResult)
  : Py.result string :=
  extract_from_messages
    (match result_messages result with Some l => l | None => [] end).

(** Truth value of [session_id]. *)
Definition session_id_given (request : ChatRequest) : bool :=
  match session_id request with
  | Some s => PyStr.truthy s
  | None => false
  end.

(** [str(session_id)] *)
Definition str_session_id (request : ChatRequest) : string :=
  match session_id request with
  | Some s => s
  | None => "None"
  end.

Definition call_run_workflow (message sid : string)
  : M Server WorkflowResult :=
  fun s =>
    let (r, w) := run_workflow message sid (world s) in
    (r, mkServer _ w (invocations s ++ [(message, sid)])).

Definition call_run_workflow_command (message : string) (command : value)
    (sid : string) : M Server WorkflowResult :=
  fun s =>
    let (r, w) := run_workflow_command message command sid (world s) in
    (r, mkServer _ w (invocations s ++ [(message, sid)])).

(** [except HTTPException: raise] and [except Exception as e: return
    JSONResponse(status_code=500, ...)] around a handler body. *)
Definition except_clauses (body : M Server Response) : M Server Response :=
  fun s =>
    match body s with
    | (Ok r, s') => (Ok r, s')
    | (Raise (HTTPException c d), s') => (Raise (HTTPException c d), s')
    | (Raise e, s') =>
        (Ok (JSONResponse 500
               (PyDict
                  [("error", PyStr ("Internal server error: " ++ exn_str e));
                   ("response",
                    PyStr "I apologize, but I'm experiencing technical difficulties. Please try again.");
                   ("products", PyList []);
                   ("message_count", PyInt 0)])),
         s')
    end.

(** The answer when the workflow was not interrupted. *)
Definition final_response (result : WorkflowResult) : M Server Response :=
  response_text <- lift (extract_final_response result) ;;
  ret (ChatResponse response_text).

End Handlers.

Module ModulesRoutes.
Section Routes.
Context `{W : Workflow}.

(** [getattr(interrupt, "args", {}) or {}] *)
Definition interrupt_args (interrupt : Interrupt.t) : value :=
  match getattr (Interrupt.args interrupt) (PyDict []) with
  | Some v => if truthy v then v else PyDict []
  | None => PyDict []
  end.

(** The body of [try] in [chat_with_agent]
    (src/modules/assistant/routes.py:69-107). *)
Definition chat_body (request : ChatRequest) : M Server Response :=
  if negb (session_id_given request)
  then raise (HTTPException 400 "session_id is required")
  else
    result <- call_run_workflow (message request) (str_session_id request) ;;
    match result_interrupt result with
    | Some (InterruptList l) =>
        match l with
        | [] => raise IndexError
        | interrupt :: _ =>
            let args := interrupt_args interrupt in
            ret (JSONResponse 200
                   (PyDict
                      [("response", PyStr (str (Interrupt.value interrupt)));
                       ("interruption",
                        PyDict
                          [("type", PyStr "create_product");
                           ("message",
                            PyStr (str (Interrupt.value interrupt)));
                           ("args", args)])]))
        end
    | _ => final_response result
    end.

Definition chat_with_agent (request : ChatRequest) : M Server Response :=
  except_clauses (chat_body request).

End Routes.
End ModulesRoutes.

Module BackendRoutes.
Section Routes.
Context `{W : Workflow}.

(** The body of [try] in [chat_with_agent]
    (src/backend/assistant/routes.py:244-286). *)
Definition chat_body (request : ChatRequest) : M Server Response :=
  if negb (session_id_given request)
  then raise (HTTPException 400 "session_id is required")
  else
    result <- call_run_workflow_command (message request) (PyStr "")
                (str_session_id request) ;;
    match result_interrupt result with
    | Some (InterruptList l) =>
        match l with
        | [] => raise IndexError
        | interrupt :: _ =>
            value <- lift (index0 (Interrupt.value interrupt)) ;;
            action_request <- lift (get value "action_request" (PyDict [])) ;;
            tool_name <- lift (get action_request "action" (PyStr "unknown")) ;;
            args <- lift (get action_request "args" (PyDict [])) ;;
            description <- lift (get value "description" (PyStr "")) ;;
            ret (JSONResponse 200
                   (PyDict
                      [("response", PyStr (str (Interrupt.value interrupt)));
                       ("interruption",
                        PyDict
                          [("type", tool_name);
                           ("message", description);
                           ("args", args)])]))
        end
    | _ => final_response result
    end.

Definition chat_with_agent (request : ChatRequest) : M Server Response :=
  except_clauses (chat_body request).

(** [chat_with_agent_stream] (src/backend/assistant/routes.py:88-112): its
    one clause [except Exception] also catches the [HTTPException] of the
    guard. *)
Definition chat_with_agent_stream (request : ChatRequest)
  : M Server Response :=
  fun s =>
    if negb (session_id_given request)
    then
      (Ok (JSONResponse 500
             (PyDict
                [("error",
                  PyStr (exn_str (HTTPException 400 "session_id is required")));
                 ("response",
                  PyStr "Internal server error occurred during streaming.")])),
       s)
    else
      (Ok (StreamingResponse (message request) (str_session_id request)), s).

End Routes.
End BackendRoutes.

(** ** Tool dispatch and the final answer (src/modules/assistant/agent.py) *)

Module Agent.

(** [AgentState], a dict with the one key ["messages"]. *)
Record AgentState : Type := mkState { messages : list Message }.

(** The tools, the model and [json.loads]; the tools act on a database. *)
Class Toolbox : Type := {
  toolbox_builtins :: Builtins;
  Db : Type;
  (** [json.loads(s)] *)
  json_loads : string -> result value;
  (** the [func] of each tool, called with the keyword arguments [args] *)
  view_product_tool_func : value -> Db -> result string * Db;
  add_to_cart_tool_func : value -> Db -> result string * Db;
  place_order_tool_func : value -> Db -> result string * Db;
  (** [llm.ainvoke(messages)] *)
  llm_ainvoke : list Message -> Db -> result Message * Db;
  (** the number of node runs the compiled graph allows before it raises
      [GraphRecursionError]; LangGraph raises already when a run would take
      as many node runs as its own recursion limit, so this is one less than
      that limit *)
  recursion_limit : nat
}.

Definition system_message : Message :=
  mkMessage SystemMessage
    "You are an eCommerce assistant. You can use these tools: ViewProduct, AddToCart, PlaceOrder. Call them by name with correct parameters."
    IsNone None [].

(** [HumanMessage(content=res)] *)
Definition tool_result (res : string) : Message := human res.

(** The names of [tools] (agent.py:73-93). *)
Definition bound_tools : list string := ["ViewProduct"; "AddToCart"; "PlaceOrder"].

Definition is_bound (name : string) : bool :=
  existsb (String.eqb name) bound_tools.

(** [state["messages"][-1]] *)
Definition last_message (state : AgentState) : result Message :=
  match rev (messages state) with
  | [] => Raise IndexError
  | last :: _ => Ok last
  end.

(** ["function_call" in getattr(last, "additional_kwargs", {})] *)
Definition has_function_call (last : Message) : bool :=
  mem "function_call" (additional_kwargs last).

(** [check_tool_needed] (agent.py:144-150). *)
Definition check_tool_needed (state : AgentState) : result string :=
  match last_message state with
  | Raise e => Raise e
  | Ok last =>
      if has_tool_calls last || has_function_call last
      then Ok "tools" else Ok "end"
  end.

(** Truth value of a [tool_calls] variable. *)
Definition nonempty_calls (tool_calls : option (list ToolCall)) : bool :=
  match tool_calls with
  | Some (_ :: _) => true
  | _ => false
  end.

Section Dispatch.
Context `{T : Toolbox}.

(** [call_model] (agent.py:137-141). *)
Definition call_model (state : AgentState) : M Db AgentState :=
  let messages := messages state ++ [system_message] in
  response <- llm_ainvoke messages ;;
  ret (mkState (messages ++ [response])).

(** [json.loads(v)]: [TypeError] unless [v] is a [str]. *)
Definition loads (v : value) : result value :=
  match v with
  | PyStr s => json_loads s
  | _ => Raise TypeError
  end.

(** The legacy function call of [last] as a one-element [tool_calls]
    (agent.py:161-164). *)
Definition function_call_as_tool_calls (last : Message)
  : result (list ToolCall) :=
  match getitem (PyDict (additional_kwargs last)) "function_call" with
  | Raise e => Raise e
  | Ok func_call =>
      match get func_call "arguments" (PyStr "{}") with
      | Raise e => Raise e
      | Ok source =>
          match loads source with
          | Raise e => Raise e
          | Ok arguments =>
              match getitem func_call "name" with
              | Raise e => Raise e
              | Ok name => Ok [ToolCallObject name arguments]
              end
          end
      end
  end.

(** One round of the loop at agent.py:169-182, giving [res]. *)
Definition dispatch (tool_call : ToolCall) : M Db string :=
  match tool_call with
  | ToolCallDict _ => raise AttributeError
  | ToolCallObject name args =>
      if eq_str name "ViewProduct" then view_product_tool_func args
      else if eq_str name "AddToCart" then add_to_cart_tool_func args
      else if eq_str name "PlaceOrder" then place_order_tool_func args
      else ret ("Unknown tool: " ++ str name)%string
  end.

(** The loop at agent.py:169-182, giving [tool_results]. *)
Fixpoint run_tool_calls (tool_calls : list ToolCall)
  : M Db (list Message) :=
  match tool_calls with
  | [] => ret []
  | tool_call :: rest =>
      res <- dispatch tool_call ;;
      tool_results <- run_tool_calls rest ;;
      ret (tool_result res :: tool_results)
  end.

(** [call_tools] (agent.py:153-185). *)
Definition call_tools (state : AgentState) : M Db AgentState :=
  last <- lift (last_message state) ;;
  tool_calls <-
    (if negb (nonempty_calls (tool_calls last)) && has_function_call last
     then calls <- lift (function_call_as_tool_calls last) ;;
          ret (Some calls)
     else ret (tool_calls last)) ;;
  match tool_calls with
  | Some (tool_call :: rest) =>
      tool_results <- run_tool_calls (tool_call :: rest) ;;
      ret (mkState (messages state ++ tool_results))
  | _ => ret state
  end.

(** The compiled graph: [chat], then [tools] and [chat] again while
    [check_tool_needed] says so (agent.py:188-195); [fuel] node runs are
    left. *)
Fixpoint agent_graph (fuel : nat) (state : AgentState)
  : M Db AgentState :=
  match fuel with
  | O => raise GraphRecursionError
  | S fuel' =>
      state <- call_model state ;;
      next <- lift (check_tool_needed state) ;;
      if String.eqb next "tools" then
        match fuel' with
        | O => raise GraphRecursionError
        | S fuel'' =>
            state <- call_tools state ;;
            agent_graph fuel'' state
        end
      else ret state
  end.

(** The condition of the loop at agent.py:207-209. *)
Definition has_text (msg : Message) : bool :=
  PyStr.truthy (content msg) && PyStr.truthy (PyStr.strip (content msg)).

Definition could_not_process : string :=
  "Sorry, I could not process your request.".

(** The answer picked from the final state (agent.py:207-210). *)
Definition final_answer (state : AgentState) : string :=
  match find has_text (rev (messages state)) with
  | Some msg => content msg
  | None => could_not_process
  end.

(** [ecommerce_assistant] (agent.py:199-210). *)
Definition ecommerce_assistant (message : string) : M Db string :=
  state <- agent_graph recursion_limit (mkState [human message]) ;;
  ret (final_answer state).

End Dispatch.

End Agent.

(** ** What the client of a route sees *)

(** The HTTP status FastAPI answers with: the code of a raised
    [HTTPException], 500 for any other exception, the code of a
    [JSONResponse], 200 otherwise. *)
Definition http_status (outcome : result Response) : Z :=
  match outcome with
  | Ok (JSONResponse code _) => code
  | Ok _ => 200
  | Raise (HTTPException code _) => code
  | Raise _ => 500
  end.

(** [body["interruption"][key]] of a JSON answer. *)
Definition interruption_field (key : string) (outcome : result Response)
  : option value :=
  match outcome with
  | Ok (JSONResponse _ (PyDict body)) =>
      match lookup "interruption" body with
      | Some (PyDict interruption) => lookup key interruption
      | _ => None
      end
  | _ => None
  end.

(** ** Instances on which the definitions run *)

Definition plain_builtins : Builtins :=
  {| repr := fun _ => "<value>"; exn_str := fun _ => "<exception>" |}.

(** A workflow that answers every turn with [r] and counts its turns. *)
Definition constant_workflow (r : WorkflowResult) : Workflow :=
  {| workflow_builtins := plain_builtins;
     World := nat;
     run_workflow := fun _ _ w => (Ok r, S w);
     run_workflow_command := fun _ _ _ w => (Ok r, S w) |}.

(** The interrupt raised for [delete_product(sku="ABC")]. *)
Definition delete_product_interrupt : Interrupt.t :=
  Interrupt.mk
    (PyList
       [PyDict
          [("action_request",
            PyDict [("action", PyStr "delete_product");
                    ("args", PyDict [("sku", PyStr "ABC")])]);
           ("description", PyStr "Delete product ABC?")]])
    Absent.

Definition interrupted_result : WorkflowResult :=
  mkResult (Some []) (Some (InterruptList [delete_product_interrupt])).

(** The server before the first turn. *)
Definition fresh_server (r : WorkflowResult) : @Server (constant_workflow r) :=
  mkServer (constant_workflow r) 0 [].

(** A toolbox over a database that counts the tool runs. *)
Definition counting_toolbox : Agent.Toolbox :=
  {| Agent.toolbox_builtins := plain_builtins;
     Agent.Db := nat;
     Agent.json_loads := fun _ => Ok (PyDict []);
     Agent.view_product_tool_func := fun _ n => (Ok "Product not found.", S n);
     Agent.add_to_cart_tool_func :=
       fun _ n => (Ok "Added to cart: Product 1 x 1", S n);
     Agent.place_order_tool_func :=
       fun _ n => (Raise (Exception "no database"), S n);
     Agent.llm_ainvoke := fun _ n => (Ok (ai "Done." IsNone), n);
     Agent.recursion_limit := 25 |}.

(** An AI message asking, in the legacy way, for the tool [name]. *)
Definition function_call_message (name : string) : Message :=
  mkMessage AIMessage "" IsNone (Some [])
    [("function_call",
      PyDict [("name", PyStr name); ("arguments", PyStr "{}")])].

(** ** Readings of the specification *)

(** [m] is the most recent message of [ms] that satisfies [p]. *)
Definition most_recent (p : Message -> bool) (ms : list Message) (m : Message)
  : Prop :=
  exists pre post,
    ms = pre ++ m :: post /\ p m = true /\ Forall (fun x => p x = false) post.

(** Rule 2 of the extraction policy in the words of the specification: when
    the first loop selects nothing, the most recent message of any origin
    that passes the filter is the answer. *)
Definition rule2_any_origin (ms : list Message) : Prop :=
  (forall x, In x ms -> is_meaningful_agent_message x = Ok false) ->
  forall m, most_recent passes_filter_any_origin ms m ->
            extract_from_messages ms = Ok (PyStr.strip (content m)).

(** The content of [m], stripped of whitespace, is non-empty. *)
Definition nonblank (m : Message) : bool :=
  PyStr.truthy (PyStr.strip (content m)).


(** ** The streaming path (src/backend/assistant/routes.py:36-86) *)

(** [json.dumps] *)
Class Serializer : Type := { json_dumps : value -> string }.

(** Pure calls that may raise, in sequence. *)
Definition and_then {A B : Type} (r : result A) (k : A -> result B)
  : result B :=
  match r with
  | Ok a => k a
  | Raise e => Raise e
  end.

(** A dict yielded by the workflow stream: its key ["__interrupt__"], when
    present, holds a sequence of interrupts. *)
Record StreamDict : Type := mkStreamDict {
  stream_interrupts : option (list Interrupt.t)
}.

(** What the stream yields: a message or a dict, alone or as the first
    component of a tuple. *)
Inductive StreamItem : Type :=
| ItemMessage (m : Message)
| ItemDict (d : StreamDict).

Inductive Chunk : Type :=
| ChunkItem (x : StreamItem)
| ChunkTuple (xs : list StreamItem).

Definition stream_error : string :=
  String Re.newline "[Error] Something went wrong during streaming.".

Section Streaming.
Context `{B : Builtins} `{J : Serializer}.

(** The dict that [extract_interrupt_message] serialises
    (routes.py:41-55). *)
Definition interruption_payload (interrupt : Interrupt.t) : result value :=
  and_then (index0 (Interrupt.value interrupt)) (fun value =>
  and_then (get value "action_request" (PyDict [])) (fun action_request =>
  and_then (get action_request "action" (PyStr "unknown")) (fun tool_name =>
  and_then (get action_request "args" (PyDict [])) (fun args =>
  and_then (get value "description" (PyStr "")) (fun description =>
  Ok (PyDict
        [("response", PyStr (str (Interrupt.value interrupt)));
         ("interruption",
          PyDict [("type", tool_name);
                  ("message", description);
                  ("args", args)])])))))).

(** [extract_interrupt_message(message)] (routes.py:36-55). *)
Definition extract_interrupt_message (message : StreamDict) : result string :=
  match stream_interrupts message with
  | None => Raise KeyError
  | Some [] => Raise IndexError
  | Some (interrupt :: _) =>
      and_then (interruption_payload interrupt) (fun payload =>
      Ok (json_dumps payload))
  end.

(** [chunk[0] if isinstance(chunk, tuple) else chunk] *)
Definition chunk_message (chunk : Chunk) : result StreamItem :=
  match chunk with
  | ChunkItem x => Ok x
  | ChunkTuple [] => Raise IndexError
  | ChunkTuple (x :: _) => Ok x
  end.

(** What [stream_agent_response] yields for the chunks of the workflow
    stream (routes.py:71-86); an element [Raise e] stands for the stream
    raising [e] at that point.  Every exception ends the generator with the
    one line of [stream_error]. *)
Fixpoint stream_agent_response (chunks : list (result Chunk)) : list string :=
  match chunks with
  | [] => []
  | Raise _ :: _ => [stream_error]
  | Ok chunk :: rest =>
      match chunk_message chunk with
      | Raise _ => [stream_error]
      | Ok (ItemDict d) =>
          match stream_interrupts d with
          | Some _ =>
              match extract_interrupt_message d with
              | Ok text => [text]
              | Raise _ => [stream_error]
              end
          | None => stream_agent_response rest
          end
      | Ok (ItemMessage message) =>
          match is_valid_ai_message message with
          | Raise _ => [stream_error]
          | Ok true => content message :: stream_agent_response rest
          | Ok false => stream_agent_response rest
          end
      end
  end.

End Streaming.

(** ** Resuming and the chat history routes *)

(** [msg.type] *)
Definition message_type (msg : Message) : string :=
  match kind msg with
  | AIMessage => "ai"
  | HumanMessage => "human"
  | SystemMessage => "system"
  | ToolMessage => "tool"
  end.

(** A message of the chat history with its attribute [timestamp]. *)
Record StoredMessage : Type := mkStored {
  stored : Message;
  timestamp : attr value
}.

Section ResumeAndHistory.
Context `{W : Workflow}.

(** The resumed workflow: [top_level_supervisor.invoke(Command(resume=action),
    config)] in src/modules, [run_workflow("", Command(resume=[action]),
    session_id, True)] in src/backend. *)
Variable resume_workflow :
  string -> value -> World -> result WorkflowResult * World.

(** [chat_history_manager] *)
Variable get_recent_messages :
  string -> Z -> World -> result (list StoredMessage) * World.
Variable clear_session : string -> World -> result unit * World.

(** [resume_agent] (src/modules/assistant/routes.py:126-154,
    src/backend/assistant/routes.py:305-338). *)
Definition resume_agent (session_id : string) (action : value)
  : M World Response :=
  fun w =>
    match resume_workflow session_id action w with
    | (Ok result, w') =>
        match extract_final_response result with
        | Ok response_text => (Ok (ChatResponse response_text), w')
        | Raise e =>
            (Ok (JSONResponse 500
                   (PyDict
                      [("error", PyStr (exn_str e));
                       ("response",
                        PyStr "Unable to resume the agent due to an internal error.")])),
             w')
        end
    | (Raise e, w') =>
        (Ok (JSONResponse 500
               (PyDict
                  [("error", PyStr (exn_str e));
                   ("response",
                    PyStr "Unable to resume the agent due to an internal error.")])),
         w')
    end.

(** One entry of [history] (routes.py:193-197). *)
Definition history_entry (msg : StoredMessage) : value :=
  PyDict
    [("type", PyStr (message_type (stored msg)));
     ("content", PyStr (content (stored msg)));
     ("timestamp",
      match getattr (timestamp msg) PyNone with
      | Some v => v
      | None => PyNone
      end)].

(** [get_chat_history] (src/modules/assistant/routes.py:180-210). *)
Definition get_chat_history (session_id : string) (limit : Z)
  : M World value :=
  fun w =>
    match get_recent_messages session_id limit w with
    | (Ok messages, w') =>
        let history := map history_entry messages in
        (Ok (PyDict
               [("session_id", PyStr session_id);
                ("message_count", PyInt (Z.of_nat (length history)));
                ("messages", PyList history)]),
         w')
    | (Raise e, w') =>
        (Raise (HTTPException 500
                  ("Failed to retrieve chat history: " ++ exn_str e)%string),
         w')
    end.

(** [clear_chat_history] (src/modules/assistant/routes.py:159-177). *)
Definition clear_chat_history (session_id : string) : M World value :=
  fun w =>
    match clear_session session_id w with
    | (Ok _, w') =>
        (Ok (PyDict
               [("message",
                 PyStr ("Chat history cleared for user " ++ session_id)%string)]),
         w')
    | (Raise e, w') =>
        (Raise (HTTPException 500
                  ("Failed to clear chat history: " ++ exn_str e)%string),
         w')
    end.

End ResumeAndHistory.

(** ** OpenAI function specs (src/modules/assistant/agent.py:97-112) *)

Module ToolSpec.

(** The dict of [args_schema.schema()]: its entries ["properties"], a dict
    keyed by the field names, and ["required"], each present or not. *)
Record Schema : Type := mkSchema {
  properties : option dict;
  required : option value
}.

(** A [StructuredTool] as far as [tool_to_openai_function] reads it. *)
Record t : Type := mk {
  name : string;
  description : string;
  args_schema : option Schema
}.

(** [{k: {"type": "string"} for k in properties}] *)
Definition string_typed (properties : dict) : dict :=
  map (fun item => (fst item, PyDict [("type", PyStr "string")])) properties.

(** [tool_to_openai_function] (agent.py:97-109); without [args_schema] the
    schema is the empty dict. *)
Definition tool_to_openai_function (tool : t) : value :=
  let schema :=
    match args_schema tool with
    | Some s => s
    | None => mkSchema None None
    end in
  PyDict
    [("name", PyStr (name tool));
     ("description", PyStr (description tool));
     ("parameters",
      PyDict
        [("type", PyStr "object");
         ("properties",
          PyDict (string_typed
                    (match properties schema with
                     | Some p => p
                     | None => []
                     end)));
         ("required",
          match required schema with
          | Some r => r
          | None => PyList []
          end)])].

(** [spec["parameters"]["properties"]] of a function spec. *)
Definition announced_properties (spec : value) : option dict :=
  match spec with
  | PyDict entries =>
      match lookup "parameters" entries with
      | Some (PyDict parameters) =>
          match lookup "properties" parameters with
          | Some (PyDict announced) => Some announced
          | _ => None
          end
      | _ => None
      end
  | _ => None
  end.

(** The ["properties"] of the schema of [tool], none without a schema. *)
Definition declared_properties (tool : t) : dict :=
  match args_schema tool with
  | Some schema =>
      match properties schema with
      | Some declared => declared
      | None => []
      end
  | None => []
  end.

(** [functions = [tool_to_openai_function(t) for t in tools]] *)
Definition functions (tools : list t) : list value :=
  map tool_to_openai_function tools.

End ToolSpec.

(** ** The Magento client settings (src/backend/magento/client.py) *)

Module Magento.

(** The keyword arguments given to [MagentoOAuthClient]. *)
Record MagentoOAuthClient : Type := mkClient {
  base_url : value;
  consumer_key : value;
  consumer_secret : value;
  access_token : value;
  access_token_secret : value;
  verify_ssl : bool
}.

(** The environment variables the client is built from. *)
Definition required_settings : list string :=
  ["MAGENTO_BASE_URL"; "MAGENTO_CONSUMER_KEY"; "MAGENTO_CONSUMER_SECRET";
   "MAGENTO_ACCESS_TOKEN"; "MAGENTO_ACCESS_TOKEN_SECRET";
   "MAGENTO_VERIFY_SSL"].

(** [v.lower() != "false"]: only a [str] has [lower]. *)
Definition not_false (v : value) : result bool :=
  match v with
  | PyStr s => Ok (negb (String.eqb (PyStr.lower s) "false"))
  | _ => Raise AttributeError
  end.

(** [get_magento_client] on the dict [env_vars] that
    [common.get_required_env_vars] returned (client.py:15-25). *)
Definition get_magento_client (env_vars : dict) : result MagentoOAuthClient :=
  let env := PyDict env_vars in
  and_then (getitem env "MAGENTO_BASE_URL") (fun base_url =>
  and_then (getitem env "MAGENTO_CONSUMER_KEY") (fun consumer_key =>
  and_then (getitem env "MAGENTO_CONSUMER_SECRET") (fun consumer_secret =>
  and_then (getitem env "MAGENTO_ACCESS_TOKEN") (fun access_token =>
  and_then (getitem env "MAGENTO_ACCESS_TOKEN_SECRET")
    (fun access_token_secret =>
  and_then (getitem env "MAGENTO_VERIFY_SSL") (fun flag =>
  and_then (not_false flag) (fun verify_ssl =>
  Ok (mkClient base_url consumer_key consumer_secret access_token
        access_token_secret verify_ssl)))))))).

End Magento.

(** ** More instances on which the definitions run *)

Definition plain_serializer : Serializer :=
  {| json_dumps := fun _ => "<json>" |}.

(** The chunk that reports the interrupt of [delete_product(sku="ABC")]. *)
Definition interrupt_chunk : Chunk :=
  ChunkItem (ItemDict (mkStreamDict (Some [delete_product_interrupt]))).

Definition message_chunk (m : Message) : Chunk :=
  ChunkTuple [ItemMessage m; ItemDict (mkStreamDict None)].

(** A toolbox whose model asks once for ViewProduct and then answers. *)
Definition asking_toolbox : Agent.Toolbox :=
  {| Agent.toolbox_builtins := plain_builtins;
     Agent.Db := nat;
     Agent.json_loads := fun _ => Ok (PyDict [("product_id", PyInt 1)]);
     Agent.view_product_tool_func :=
       fun _ n => (Ok "Product: Mug, Price: 5, Stock: 3", S n);
     Agent.add_to_cart_tool_func := fun _ n => (Ok "Added", S n);
     Agent.place_order_tool_func := fun _ n => (Ok "Order placed!", S n);
     Agent.llm_ainvoke :=
       fun messages n =>
         match n with
         | O => (Ok (function_call_message "ViewProduct"), n)
         | S _ => (Ok (ai "  " IsNone), n)
         end;
     Agent.recursion_limit := 25 |}.

(** A workflow that raises [e] on every turn. *)
Definition failing_workflow (e : exn) : Workflow :=
  {| workflow_builtins := plain_builtins;
     World := nat;
     run_workflow := fun _ _ w => (Raise e, S w);
     run_workflow_command := fun _ _ _ w => (Raise e, S w) |}.

Definition delete_request : ChatRequest :=
  mkRequest (Some "s1") "delete product ABC".

(** A result without interruption, and one with an empty interrupt list. *)
Definition plain_result : WorkflowResult :=
  mkResult (Some [human "stock of SKU123?";
                  ai "Stock level for SKU123 is 42" (Val "stock_agent")])
    None.

Definition empty_interrupt_result : WorkflowResult :=
  mkResult (Some []) (Some (InterruptList [])).

(** An interrupt whose value names no action. *)
Definition bare_interrupt : Interrupt.t :=
  Interrupt.mk (PyList [PyDict [("description", PyStr "Approve?")]]) Absent.

(** ** Tool-call intents that carry their name as an attribute *)



(** [name] equals one of the three names the loop of [call_tools] tests. *)
Definition names_bound_tool (name : value) : bool :=
  eq_str name "ViewProduct" || eq_str name "AddToCart"
  || eq_str name "PlaceOrder".




(** * Theorems *)

(** ** Scanning a transcript from its end *)

Lemma find_app_skip {A : Type} (p : A -> bool) (l r : list A) :
  Forall (fun x => p x = false) l -> find p (l ++ r) = find p r.
Proof.
  induction 1 as [|x l Hx _ IH]; simpl; [reflexivity|].
  now rewrite Hx.
Qed.

Lemma find_none_Forall {A : Type} (p : A -> bool) (l : list A) :
  Forall (fun x => p x = false) l -> find p l = None.
Proof.
  intros H. rewrite <- (app_nil_r l). now rewrite find_app_skip.
Qed.

Lemma find_raising_none {A : Type} (cond : A -> result bool) (l : list A) :
  (forall x, In x l -> cond x = Ok false) -> find_raising cond l = Ok None.
Proof.
  induction l as [|x l IH]; intros H; simpl; [reflexivity|].
  rewrite (H x (or_introl eq_refl)).
  apply IH. intros y Hy. apply H. now right.
Qed.

Lemma find_raising_returns {A : Type} (cond : A -> result bool) (l : list A) :
  (forall x, In x l -> exists b, cond x = Ok b) ->
  exists o, find_raising cond l = Ok o.
Proof.
  induction l as [|x l IH]; intros H; simpl; [now exists None|].
  destruct (H x (or_introl eq_refl)) as [[|] ->].
  - now exists (Some x).
  - apply IH. intros y Hy. apply H. now right.
Qed.

Lemma find_rev_most_recent (p : Message -> bool) ms m :
  most_recent p ms m -> find p (rev ms) = Some m.
Proof.
  intros (pre & post & -> & Hm & Hpost).
  rewrite rev_app_distr. simpl. rewrite <- app_assoc. simpl.
  rewrite find_app_skip by now apply Forall_rev.
  simpl. now rewrite Hm.
Qed.

Lemma In_rev_iff {A : Type} (P : A -> Prop) (l : list A) :
  (forall x, In x l -> P x) -> forall x, In x (rev l) -> P x.
Proof.
  intros H x Hx. apply H. now apply in_rev.
Qed.

(** ** The filters *)

Lemma is_meaningful_is_ai msg :
  is_meaningful msg = true -> kind msg = AIMessage.
Proof.
  unfold is_meaningful, isinstance_AIMessage.
  destruct (kind msg); simpl; congruence.
Qed.

Lemma is_meaningful_nonempty msg :
  is_meaningful msg = true -> PyStr.truthy (content msg) = true.
Proof.
  unfold is_meaningful.
  destruct (isinstance_AIMessage msg), (PyStr.truthy (content msg));
    simpl; congruence.
Qed.

Lemma is_meaningful_agent_message_not_ai msg :
  isinstance_AIMessage msg = false -> is_meaningful_agent_message msg = Ok false.
Proof.
  unfold is_meaningful_agent_message. now intros ->.
Qed.

Lemma is_meaningful_agent_message_named msg :
  name msg <> IsNone -> exists b, is_meaningful_agent_message msg = Ok b.
Proof.
  intros Hn. unfold is_meaningful_agent_message, name_matches_agent.
  destruct (isinstance_AIMessage msg); [|now exists false].
  destruct (name msg) as [| |n]; simpl; try congruence.
  - destruct (Re.match_agent ""); eauto.
  - destruct (Re.match_agent n); eauto.
Qed.

(** ** Response extraction *)

(** The function returns, without raising, on every transcript in which no
    AI message has the name [None]. *)
Lemma extract_returns_when_named ms :
  (forall m, In m ms -> isinstance_AIMessage m = true -> name m <> IsNone) ->
  exists s, extract_from_messages ms = Ok s.
Proof.
  intros H. unfold extract_from_messages.
  destruct (find_raising_returns is_meaningful_agent_message (rev ms)) as [o ->].
  - apply In_rev_iff. intros m Hm.
    destruct (isinstance_AIMessage m) eqn:E.
    + apply is_meaningful_agent_message_named. now apply H.
    + exists false. now apply is_meaningful_agent_message_not_ai.
  - destruct o; [eauto|].
    destruct (find is_meaningful (rev ms)); [eauto|].
    destruct (find is_nonempty_ai (rev ms)); eauto.
Qed.

Lemma is_valid_ai_message_returns_when_named msg :
  name msg <> IsNone -> exists b, is_valid_ai_message msg = Ok b.
Proof.
  intros Hn. unfold is_valid_ai_message, name_matches_agent.
  destruct (_ && _ && _); [|now exists false].
  destruct (name msg); simpl; try congruence; eauto.
Qed.

(** Whatever the names are, the function raises nothing but [TypeError]. *)
Lemma extract_raises_only_TypeError ms e :
  extract_from_messages ms = Raise e -> e = TypeError.
Proof.
  unfold extract_from_messages.
  assert (H : forall l, find_raising is_meaningful_agent_message l = Raise e ->
                        e = TypeError).
  { induction l as [|x l IH]; simpl; [discriminate|].
    unfold is_meaningful_agent_message at 1, name_matches_agent.
    destruct (isinstance_AIMessage x); [|exact IH].
    destruct (getattr (name x) ""); [|congruence].
    destruct (Re.match_agent s); [|exact IH].
    destruct (is_meaningful x); [discriminate|exact IH]. }
  destruct (find_raising _ _) as [[m|]|e'] eqn:E; try discriminate.
  - destruct (find is_meaningful _); [discriminate|].
    destruct (find is_nonempty_ai _); discriminate.
  - intros [= ->]. now apply (H (rev ms)).
Qed.

(** C2: an AI message whose name is [None] makes [extract_final_response]
    and [is_valid_ai_message] raise [TypeError] instead of returning: the
    default of [getattr(msg, "name", "")] does not replace a name that is
    present and [None], and [re.match] rejects [None]. *)
Theorem unnamed_ai_message_raises :
  extract_final_response
    (mkResult (Some [ai "Stock level for SKU123 is 42" IsNone]) None)
  = Raise TypeError
  /\ is_valid_ai_message (ai "Stock level for SKU123 is 42" IsNone)
     = Raise TypeError
  /\ extract_final_response
       (mkResult (Some [ai "Stock level for SKU123 is 42" Absent]) None)
     = Ok "Stock level for SKU123 is 42".
Proof. repeat split; reflexivity. Qed.

(** C3: on the transcript [ai("transferring to stock_agent",
    name="supervisor"), ai("Stock level for SKU123 is 42",
    name="stock_agent")] the extraction returns exactly
    "Stock level for SKU123 is 42". *)
Theorem extract_stock_level_transcript :
  extract_final_response
    (mkResult
       (Some [ai "transferring to stock_agent" (Val "supervisor");
              ai "Stock level for SKU123 is 42" (Val "stock_agent")])
       None)
  = Ok "Stock level for SKU123 is 42".
Proof. reflexivity. Qed.

Lemma find_raising_app_skip {A : Type} (cond : A -> result bool) (l r : list A) :
  Forall (fun x => cond x = Ok false) l ->
  find_raising cond (l ++ r) = find_raising cond r.
Proof.
  induction 1 as [|x l Hx _ IH]; simpl; [reflexivity|].
  now rewrite Hx.
Qed.

(** Rule 1: the most recent AI message that is named [*_agent] and
    meaningful is the answer, provided no later message stops the scan by a
    name that is [None]. *)
Lemma extract_first_loop pre m post :
  is_meaningful_agent_message m = Ok true ->
  Forall (fun x => is_meaningful_agent_message x = Ok false) post ->
  extract_from_messages (pre ++ m :: post) = Ok (PyStr.strip (content m)).
Proof.
  intros Hm Hpost. unfold extract_from_messages.
  rewrite rev_app_distr. simpl. rewrite <- app_assoc. simpl.
  rewrite find_raising_app_skip by now apply Forall_rev.
  simpl. now rewrite Hm.
Qed.

(** A message of the scan whose name is [None] raises as soon as it is
    reached. *)
Lemma extract_raises_at_unnamed pre m post :
  isinstance_AIMessage m = true ->
  name m = IsNone ->
  Forall (fun x => is_meaningful_agent_message x = Ok false) post ->
  extract_from_messages (pre ++ m :: post) = Raise TypeError.
Proof.
  intros Hai Hname Hpost. unfold extract_from_messages.
  rewrite rev_app_distr. simpl. rewrite <- app_assoc. simpl.
  rewrite find_raising_app_skip by now apply Forall_rev.
  simpl. unfold is_meaningful_agent_message, name_matches_agent.
  now rewrite Hai, Hname.
Qed.

(** When the first loop selects nothing, the second loop decides. *)
Lemma extract_second_loop ms :
  (forall x, In x ms -> is_meaningful_agent_message x = Ok false) ->
  extract_from_messages ms
  = match find is_meaningful (rev ms) with
    | Some msg => Ok (PyStr.strip (content msg))
    | None =>
        match find is_nonempty_ai (rev ms) with
        | Some msg => Ok (PyStr.strip (content msg))
        | None => Ok no_meaningful_response
        end
    end.
Proof.
  intros H. unfold extract_from_messages.
  rewrite find_raising_none; [reflexivity|].
  now apply In_rev_iff.
Qed.

Lemma extract_without_ai ms :
  (forall x, In x ms -> isinstance_AIMessage x = false) ->
  extract_from_messages ms = Ok no_meaningful_response.
Proof.
  intros H. rewrite extract_second_loop.
  - rewrite !find_none_Forall; [reflexivity| |].
    + apply Forall_forall. intros x Hx. unfold is_nonempty_ai.
      rewrite (H x); [reflexivity|now apply in_rev].
    + apply Forall_forall. intros x Hx. unfold is_meaningful.
      rewrite (H x); [reflexivity|now apply in_rev].
  - intros x Hx. apply is_meaningful_agent_message_not_ai. now apply H.
Qed.

(** Rule 3: when no message is meaningful, the most recent AI message with
    non-empty content is the answer, filter or not. *)
Lemma extract_third_loop ms m :
  (forall x, In x ms -> is_meaningful_agent_message x = Ok false) ->
  Forall (fun x => is_meaningful x = false) ms ->
  most_recent is_nonempty_ai ms m ->
  extract_from_messages ms = Ok (PyStr.strip (content m)).
Proof.
  intros Hfirst Hnone Hm. rewrite extract_second_loop by assumption.
  rewrite find_none_Forall by now apply Forall_rev.
  now rewrite (find_rev_most_recent _ _ _ Hm).
Qed.

(** C4, as stated: a transcript whose only message is the human message
    "Where is my order?" has no agent message, that message passes the
    filter read for any origin, and yet the extraction answers with the
    literal fallback, so rule 2 for messages of any origin fails. *)
Lemma any_origin_fallback_fails :
  ~ rule2_any_origin [human "Where is my order?"]
  /\ extract_from_messages [human "Where is my order?"]
     = Ok "No meaningful response found.".
Proof.
  split; [|reflexivity].
  unfold rule2_any_origin. intros H.
  assert (E : extract_from_messages [human "Where is my order?"]
              = Ok (PyStr.strip (content (human "Where is my order?")))).
  { apply H.
    - intros x [<-|[]]. reflexivity.
    - exists [], []. repeat split. constructor. }
  discriminate E.
Qed.

(** C4, amended: when the first loop selects nothing, the extraction returns
    the stripped content of the most recent message that [is_meaningful]
    accepts, and that message is an AI message (of any name); a transcript
    without AI messages yields the literal fallback. *)
Theorem fallback_most_recent_meaningful_ai :
  (forall ms m,
      (forall x, In x ms -> is_meaningful_agent_message x = Ok false) ->
      most_recent is_meaningful ms m ->
      extract_from_messages ms = Ok (PyStr.strip (content m))
      /\ kind m = AIMessage)
  /\ (forall ms,
         (forall x, In x ms -> isinstance_AIMessage x = false) ->
         extract_from_messages ms = Ok no_meaningful_response).
Proof.
  split.
  - intros ms m Hfirst Hm. split.
    + rewrite extract_second_loop by assumption.
      now rewrite (find_rev_most_recent _ _ _ Hm).
    + destruct Hm as (_ & _ & _ & Hm & _). now apply is_meaningful_is_ai.
  - exact extract_without_ai.
Qed.

Lemma fallback_most_recent_meaningful_ai_witness :
  extract_from_messages
    [ai "transferring to supervisor" (Val "stock_agent");
     ai "Your order has shipped." (Val "supervisor");
     human "thanks"]
  = Ok "Your order has shipped."
  /\ extract_from_messages [human "Where is my order?"]
     = Ok no_meaningful_response.
Proof.
  destruct fallback_most_recent_meaningful_ai as [H1 H2]. split.
  - apply (H1 [ai "transferring to supervisor" (Val "stock_agent");
               ai "Your order has shipped." (Val "supervisor");
               human "thanks"]
              (ai "Your order has shipped." (Val "supervisor"))).
    + intros x [<-|[<-|[<-|[]]]]; reflexivity.
    + exists [ai "transferring to supervisor" (Val "stock_agent")],
             [human "thanks"].
      repeat split. constructor; [reflexivity|constructor].
  - apply (H2 [human "Where is my order?"]).
    intros x [<-|[]]. reflexivity.
Defined.

(** C5: the streaming-path filter [is_meaningful_response] tests the two
    phrases "i have successfully" and "if you have any further" on the
    content as written, not on its lower-case form, so it lets
    "I have successfully ..." through, which [is_meaningful] excludes. *)
Theorem is_meaningful_response_is_case_sensitive :
  is_meaningful_response "I have successfully created the product." = true
  /\ is_meaningful_response "i have successfully created the product." = false
  /\ is_meaningful
       (ai "I have successfully created the product." (Val "product_agent"))
     = false
  /\ is_meaningful_response "If you have any further questions, ask." = true.
Proof. repeat split; reflexivity. Qed.

(** With every AI message empty and none named [None], the extraction
    answers with the literal fallback. *)
Lemma extract_fallback_when_ai_empty ms :
  (forall m, In m ms -> isinstance_AIMessage m = true ->
             content m = "" /\ name m <> IsNone) ->
  extract_from_messages ms = Ok no_meaningful_response.
Proof.
  intros H.
  assert (Hm : forall x, In x (rev ms) -> is_meaningful x = false).
  { apply In_rev_iff. intros x Hx. unfold is_meaningful.
    destruct (isinstance_AIMessage x) eqn:E; [|reflexivity].
    destruct (H x Hx E) as [-> _]. reflexivity. }
  rewrite extract_second_loop.
  - rewrite !find_none_Forall; [reflexivity| |].
    + apply Forall_forall. intros x Hx. unfold is_nonempty_ai.
      destruct (isinstance_AIMessage x) eqn:E; [|reflexivity].
      destruct (H x (proj2 (in_rev ms x) Hx) E) as [-> _]. reflexivity.
    + apply Forall_forall. exact Hm.
  - intros x Hx. unfold is_meaningful_agent_message.
    destruct (isinstance_AIMessage x) eqn:E; [|reflexivity].
    rewrite (Hm x (proj1 (in_rev ms x) Hx)).
    unfold name_matches_agent.
    destruct (H x Hx E) as [_ Hn].
    destruct (name x) as [| |n]; simpl; try congruence.
    destruct (Re.match_agent n); reflexivity.
Qed.

(** C6: on the transcript that holds only [ai("")], whose name is [None] as
    for every message built without a name, the extraction raises
    [TypeError] in its first loop and never reaches the literal fallback. *)
Theorem empty_unnamed_ai_message_raises :
  extract_final_response (mkResult (Some [ai "" IsNone]) None)
  = Raise TypeError
  /\ extract_final_response (mkResult (Some [ai "" (Val "stock_agent")]) None)
     = Ok "No meaningful response found.".
Proof. split; reflexivity. Qed.

(** ** The chat handlers *)

Section HandlerFacts.
Context `{W : Workflow}.

Lemma session_id_missing_or_empty (request : ChatRequest) :
  session_id request = None \/ session_id request = Some "" ->
  session_id_given request = false.
Proof.
  unfold session_id_given. now intros [-> | ->].
Qed.

(** A request with a session identifier runs the workflow exactly once. *)
Lemma modules_chat_invokes_workflow_once (request : ChatRequest) (s : Server) :
  session_id_given request = true ->
  invocations (snd (ModulesRoutes.chat_with_agent request s))
  = invocations s ++ [(message request, str_session_id request)].
Proof.
  intros Hsid.
  unfold ModulesRoutes.chat_with_agent, except_clauses, ModulesRoutes.chat_body.
  rewrite Hsid. simpl. unfold bind, call_run_workflow.
  destruct (run_workflow _ _ _) as [[r|e] w]; simpl.
  - destruct (result_interrupt r) as [[[|i l]|]|]; simpl;
      try reflexivity;
      unfold final_response, bind, lift, ret;
      destruct (extract_final_response r) as [t|e]; try reflexivity;
      destruct e; reflexivity.
  - destruct e; reflexivity.
Qed.

(** In src/modules the interruption type does not depend on the interrupt. *)
Lemma modules_chat_interruption_type_fixed
    (request : ChatRequest) (s : Server) r w i rest :
  session_id_given request = true ->
  run_workflow (message request) (str_session_id request) (world s) = (Ok r, w) ->
  result_interrupt r = Some (InterruptList (i :: rest)) ->
  interruption_field "type" (fst (ModulesRoutes.chat_with_agent request s))
  = Some (PyStr "create_product").
Proof.
  intros Hsid Hrun Hint.
  unfold ModulesRoutes.chat_with_agent, except_clauses, ModulesRoutes.chat_body.
  rewrite Hsid. simpl. unfold bind, call_run_workflow.
  rewrite Hrun. simpl. rewrite Hint. reflexivity.
Qed.

(** In src/backend the interruption carries the tool name and the arguments
    of the action request found in the interrupt. *)
Lemma backend_chat_interruption_of_action_request
    (request : ChatRequest) (s : Server) r w i rest v vs action_request
    tool_name args :
  session_id_given request = true ->
  run_workflow_command (message request) (PyStr "") (str_session_id request)
    (world s) = (Ok r, w) ->
  result_interrupt r = Some (InterruptList (i :: rest)) ->
  Interrupt.value i = PyList (PyDict v :: vs) ->
  lookup "action_request" v = Some (PyDict action_request) ->
  lookup "action" action_request = Some tool_name ->
  lookup "args" action_request = Some args ->
  let outcome := fst (BackendRoutes.chat_with_agent request s) in
  interruption_field "type" outcome = Some tool_name
  /\ interruption_field "args" outcome = Some args.
Proof.
  intros Hsid Hrun Hint Hval Hreq Haction Hargs.
  assert (E : exists response description,
             fst (BackendRoutes.chat_with_agent request s)
             = Ok (JSONResponse 200
                     (PyDict
                        [("response", response);
                         ("interruption",
                          PyDict [("type", tool_name);
                                  ("message", description);
                                  ("args", args)])]))).
  { unfold BackendRoutes.chat_with_agent, except_clauses,
      BackendRoutes.chat_body.
    rewrite Hsid. simpl. unfold bind at 1. unfold call_run_workflow_command.
    rewrite Hrun. simpl. rewrite Hint.
    unfold bind, lift, ret. rewrite Hval. simpl.
    rewrite Hreq. simpl. rewrite Haction. simpl. rewrite Hargs. simpl.
    eauto. }
  destruct E as (response & description & E).
  cbv zeta. rewrite E. split; reflexivity.
Qed.

(** Both [chat_with_agent] handlers answer a request whose session
    identifier is missing or empty by [HTTPException(400)] and leave the
    server as it was: no workflow invocation is logged and the world the
    workflow acts on is the same. *)
Lemma chat_rejects_missing_session_id (request : ChatRequest) (s : Server) :
  session_id request = None \/ session_id request = Some "" ->
  ModulesRoutes.chat_with_agent request s
  = (Raise (HTTPException 400 "session_id is required"), s)
  /\ BackendRoutes.chat_with_agent request s
     = (Raise (HTTPException 400 "session_id is required"), s)
  /\ http_status (fst (ModulesRoutes.chat_with_agent request s)) = 400%Z
  /\ http_status (fst (BackendRoutes.chat_with_agent request s)) = 400%Z.
Proof.
  intros H. apply session_id_missing_or_empty in H.
  unfold ModulesRoutes.chat_with_agent, BackendRoutes.chat_with_agent,
    except_clauses, ModulesRoutes.chat_body, BackendRoutes.chat_body.
  rewrite H. simpl. repeat split; reflexivity.
Qed.

(** The streaming route turns the same rejection into a 500 answer. *)
Lemma stream_answers_500_without_session_id (request : ChatRequest) (s : Server) :
  session_id request = None \/ session_id request = Some "" ->
  http_status (fst (BackendRoutes.chat_with_agent_stream request s)) = 500%Z
  /\ snd (BackendRoutes.chat_with_agent_stream request s) = s.
Proof.
  intros H. apply session_id_missing_or_empty in H.
  unfold BackendRoutes.chat_with_agent_stream. rewrite H. split; reflexivity.
Qed.

End HandlerFacts.

Lemma chat_rejects_missing_session_id_witness :
  ModulesRoutes.chat_with_agent (W := constant_workflow interrupted_result)
    (mkRequest None "delete product ABC") (fresh_server interrupted_result)
  = (Raise (HTTPException 400 "session_id is required"),
     fresh_server interrupted_result)
  /\ BackendRoutes.chat_with_agent (W := constant_workflow interrupted_result)
       (mkRequest (Some "") "delete product ABC")
       (fresh_server interrupted_result)
     = (Raise (HTTPException 400 "session_id is required"),
        fresh_server interrupted_result).
Proof.
  split.
  - apply (chat_rejects_missing_session_id
             (W := constant_workflow interrupted_result)
             (mkRequest None "delete product ABC")
             (fresh_server interrupted_result)).
    left. reflexivity.
  - apply (chat_rejects_missing_session_id
             (W := constant_workflow interrupted_result)
             (mkRequest (Some "") "delete product ABC")
             (fresh_server interrupted_result)).
    right. reflexivity.
Defined.

(** C1: for the interrupt of [delete_product(sku="ABC")] the handler of
    src/modules answers with the interruption type "create_product" and
    empty arguments, where the handler of src/backend answers with
    "delete_product" and the arguments of the call. *)
Theorem modules_chat_reports_create_product :
  let request := mkRequest (Some "s1") "delete product ABC" in
  let modules_outcome :=
    fst (ModulesRoutes.chat_with_agent
           (W := constant_workflow interrupted_result) request
           (fresh_server interrupted_result)) in
  let backend_outcome :=
    fst (BackendRoutes.chat_with_agent
           (W := constant_workflow interrupted_result) request
           (fresh_server interrupted_result)) in
  interruption_field "type" modules_outcome = Some (PyStr "create_product")
  /\ interruption_field "args" modules_outcome = Some (PyDict [])
  /\ interruption_field "type" backend_outcome = Some (PyStr "delete_product")
  /\ interruption_field "args" backend_outcome
     = Some (PyDict [("sku", PyStr "ABC")]).
Proof. repeat split; reflexivity. Qed.

(** ** Tool dispatch *)

Section DispatchFacts.
Context `{T : Agent.Toolbox}.



(** Every message produced by the loop is a [HumanMessage], one per call. *)
Lemma run_tool_calls_results tool_calls :
  forall db tool_results db',
    Agent.run_tool_calls tool_calls db = (Ok tool_results, db') ->
    Forall (fun m => kind m = HumanMessage) tool_results
    /\ length tool_results = length tool_calls.
Proof.
  induction tool_calls as [|tool_call rest IH]; simpl; intros db results db' H.
  - inversion H. split; [constructor|reflexivity].
  - unfold bind in H.
    destruct (Agent.dispatch tool_call db) as [[res|e] db1]; [|discriminate].
    destruct (Agent.run_tool_calls rest db1) as [[rs|e] db2] eqn:E;
      [|discriminate].
    inversion H; subst.
    destruct (IH _ _ _ E) as [Hk Hl]. split.
    + constructor; [reflexivity|assumption].
    + simpl. now rewrite Hl.
Qed.

(** The loop returns when its calls are objects and the tools return. *)
Lemma run_tool_calls_returns tool_calls :
  (forall args db, exists res db',
      Agent.view_product_tool_func args db = (Ok res, db')) ->
  (forall args db, exists res db',
      Agent.add_to_cart_tool_func args db = (Ok res, db')) ->
  (forall args db, exists res db',
      Agent.place_order_tool_func args db = (Ok res, db')) ->
  Forall (fun tool_call => is_object tool_call = true) tool_calls ->
  forall db, exists tool_results db',
    Agent.run_tool_calls tool_calls db = (Ok tool_results, db').
Proof.
  intros Hview Hadd Hplace.
  induction 1 as [|tool_call rest Hobj _ IH]; intros db; simpl.
  - now exists [], db.
  - assert (Hd : exists res db1, Agent.dispatch tool_call db = (Ok res, db1)).
    { destruct tool_call as [name args|d]; [|discriminate Hobj].
      unfold Agent.dispatch.
      destruct (eq_str name "ViewProduct"); [apply Hview|].
      destruct (eq_str name "AddToCart"); [apply Hadd|].
      destruct (eq_str name "PlaceOrder"); [apply Hplace|].
      unfold ret. eauto. }
    destruct Hd as (res & db1 & Hd).
    destruct (IH db1) as (rs & db2 & Hrs).
    exists (Agent.tool_result res :: rs), db2.
    unfold bind. now rewrite Hd, Hrs.
Qed.

(** A plain dict among the calls has no attribute [name]: the loop raises
    [AttributeError] there. *)
Lemma dispatch_dict_raises entries db :
  Agent.dispatch (ToolCallDict entries) db = (Raise AttributeError, db).
Proof. reflexivity. Qed.

Lemma is_bound_names_bound_tool name :
  names_bound_tool (PyStr name) = Agent.is_bound name.
Proof.
  unfold names_bound_tool, Agent.is_bound, Agent.bound_tools. simpl.
  now rewrite orb_false_r, orb_assoc.
Qed.



(** Without calls to run, be it for a missing or an empty [tool_calls], the
    state comes back as it is. *)
Lemma call_tools_without_calls state last db :
  Agent.last_message state = Ok last ->
  Agent.nonempty_calls (tool_calls last) = false ->
  Agent.has_function_call last = false ->
  Agent.call_tools state db = (Ok state, db).
Proof.
  intros Hlast Hcalls Hfc.
  unfold Agent.call_tools, bind, lift. rewrite Hlast, Hcalls, Hfc. simpl.
  destruct (tool_calls last) as [[|c l]|]; try reflexivity.
  discriminate Hcalls.
Qed.

(** [check_tool_needed] sends to [tools] exactly the states for which
    [call_tools] has something to look at. *)
Lemma check_tool_needed_end state last :
  Agent.last_message state = Ok last ->
  Agent.check_tool_needed state = Ok "end" ->
  Agent.nonempty_calls (tool_calls last) = false
  /\ Agent.has_function_call last = false.
Proof.
  intros Hlast. unfold Agent.check_tool_needed. rewrite Hlast.
  unfold has_tool_calls, Agent.nonempty_calls.
  destruct (tool_calls last) as [[|c l]|], (Agent.has_function_call last);
    simpl; intros E; try discriminate E; split; reflexivity.
Qed.

(** C9: [call_tools] only appends to the message log.  A state whose last
    message has no [tool_calls] attribute and no [function_call] entry is
    returned as it is, with the database untouched; and whenever
    [call_tools] returns, the returned log is the given log followed by
    tool-result messages, all of them [HumanMessage]s. *)
Theorem call_tools_appends_only :
  (forall state last db,
      Agent.last_message state = Ok last ->
      tool_calls last = None ->
      Agent.has_function_call last = false ->
      Agent.call_tools state db = (Ok state, db))
  /\ (forall state state' db db',
         Agent.call_tools state db = (Ok state', db') ->
         exists tool_results,
           Agent.messages state' = Agent.messages state ++ tool_results
           /\ Forall (fun m => kind m = HumanMessage) tool_results).
Proof.
  split.
  - intros state last db Hlast Hcalls Hfc.
    unfold Agent.call_tools, bind, lift. rewrite Hlast, Hcalls, Hfc.
    reflexivity.
  - intros state state' db db' H.
    unfold Agent.call_tools, bind, lift in H.
    destruct (Agent.last_message state) as [last|e]; [|discriminate].
    assert (Hloop : forall calls,
               match calls with
               | Some (tool_call :: rest) =>
                   fun s =>
                     match Agent.run_tool_calls (tool_call :: rest) s with
                     | (Ok a, s') =>
                         ret (Agent.mkState (Agent.messages state ++ a)) s'
                     | (Raise e, s') => (Raise e, s')
                     end
               | _ => ret state
               end db = (Ok state', db') ->
               exists tool_results,
                 Agent.messages state' = Agent.messages state ++ tool_results
                 /\ Forall (fun m => kind m = HumanMessage) tool_results).
    { intros [[|tool_call rest]|] Hc.
      - inversion Hc; subst. exists []. now rewrite app_nil_r.
      - destruct (Agent.run_tool_calls (tool_call :: rest) db)
          as [[rs|e] db1] eqn:E; [|discriminate].
        inversion Hc; subst. exists rs. split; [reflexivity|].
        now apply (run_tool_calls_results _ _ _ _ E).
      - inversion Hc; subst. exists []. now rewrite app_nil_r. }
    destruct (negb (Agent.nonempty_calls (tool_calls last))
              && Agent.has_function_call last).
    + destruct (Agent.function_call_as_tool_calls last) as [calls|e];
        [|discriminate].
      apply (Hloop (Some calls)). exact H.
    + apply (Hloop (tool_calls last)). exact H.
Qed.

End DispatchFacts.



Lemma call_tools_appends_only_witness :
  Agent.call_tools (T := counting_toolbox) (Agent.mkState [human "hello"]) 3
  = (Ok (Agent.mkState [human "hello"]), 3)
  /\ exists tool_results,
       [human "Show product 1"; function_call_message "ViewProduct";
        Agent.tool_result "Product not found."]
       = [human "Show product 1"; function_call_message "ViewProduct"]
           ++ tool_results
       /\ Forall (fun m => kind m = HumanMessage) tool_results.
Proof.
  destruct (call_tools_appends_only (T := counting_toolbox)) as [H1 H2].
  split.
  - apply (H1 (Agent.mkState [human "hello"]) (human "hello") 3);
      reflexivity.
  - apply (H2 (Agent.mkState
                 [human "Show product 1"; function_call_message "ViewProduct"])
              (Agent.mkState
                 [human "Show product 1"; function_call_message "ViewProduct";
                  Agent.tool_result "Product not found."])
              3 4).
    reflexivity.
Defined.

(** ** The final answer of [ecommerce_assistant] *)

Lemma has_text_nonblank m : Agent.has_text m = nonblank m.
Proof.
  unfold Agent.has_text, nonblank.
  destruct (content m); reflexivity.
Qed.

Lemma find_has_text_nonblank l : find Agent.has_text l = find nonblank l.
Proof.
  induction l as [|x l IH]; simpl; [reflexivity|].
  now rewrite has_text_nonblank, IH.
Qed.

(** C10: [ecommerce_assistant] answers with the content, as it is, of the
    most recent message of the final state whose content stripped of
    whitespace is non-empty, whatever its role, name or wording, and with
    "Sorry, I could not process your request." when there is none; this is
    not the main extraction policy, which on a transcript ending in a
    handoff message answers with the agent message before it. *)
Theorem ecommerce_assistant_most_recent_nonblank `{T : Agent.Toolbox} :
  (forall state m,
      most_recent nonblank (Agent.messages state) m ->
      Agent.final_answer state = content m)
  /\ (forall state,
         Forall (fun m => nonblank m = false) (Agent.messages state) ->
         Agent.final_answer state = "Sorry, I could not process your request.")
  /\ (forall message db state db',
         Agent.agent_graph Agent.recursion_limit
           (Agent.mkState [human message]) db = (Ok state, db') ->
         Agent.ecommerce_assistant message db
         = (Ok (Agent.final_answer state), db'))
  /\ (let transcript :=
        [ai "Stock level for SKU123 is 42" (Val "stock_agent");
         ai "transferring back to supervisor" (Val "supervisor");
         human "  thanks "] in
      Agent.final_answer (Agent.mkState transcript) = "  thanks "
      /\ extract_from_messages transcript = Ok "Stock level for SKU123 is 42").
Proof.
  repeat split.
  - intros state m Hm. unfold Agent.final_answer.
    rewrite find_has_text_nonblank.
    now rewrite (find_rev_most_recent _ _ _ Hm).
  - intros state H. unfold Agent.final_answer.
    rewrite find_has_text_nonblank.
    rewrite find_none_Forall; [reflexivity|now apply Forall_rev].
  - intros message db state db' H.
    unfold Agent.ecommerce_assistant, bind. now rewrite H.
Qed.

Lemma ecommerce_assistant_most_recent_nonblank_witness :
  Agent.final_answer
    (Agent.mkState
       [human "hello"; ai "transferring to stock_agent" (Val "supervisor");
        ai "   " IsNone])
  = "transferring to stock_agent"
  /\ Agent.final_answer (Agent.mkState [human " "; ai "" IsNone])
     = "Sorry, I could not process your request."
  /\ Agent.ecommerce_assistant (T := counting_toolbox) "hello" 0
     = (Ok "Done.", 0).
Proof.
  destruct (ecommerce_assistant_most_recent_nonblank (T := counting_toolbox))
    as (H1 & H2 & H3 & _).
  split; [|split].
  - apply (H1 (Agent.mkState
                 [human "hello";
                  ai "transferring to stock_agent" (Val "supervisor");
                  ai "   " IsNone])
              (ai "transferring to stock_agent" (Val "supervisor"))).
    exists [human "hello"], [ai "   " IsNone].
    repeat split. constructor; [reflexivity|constructor].
  - apply (H2 (Agent.mkState [human " "; ai "" IsNone])).
    repeat constructor.
  - apply (H3 "hello" 0
              (Agent.mkState
                 [human "hello"; Agent.system_message; ai "Done." IsNone])
              0).
    reflexivity.
Defined.

(** * Further properties *)

(** ** Strings *)

Lemma rstrip_cons_nonspace c s :
  PyStr.isspace c = false ->
  PyStr.rstrip (String c s) = String c (PyStr.rstrip s).
Proof.
  intros H. simpl. rewrite H. now destruct (PyStr.rstrip s).
Qed.

Lemma rstrip_idempotent s : PyStr.rstrip (PyStr.rstrip s) = PyStr.rstrip s.
Proof.
  induction s as [|c s IH]; [reflexivity|].
  simpl. destruct (PyStr.rstrip s) as [|d r] eqn:E.
  - destruct (PyStr.isspace c) eqn:Hc; [reflexivity|].
    simpl. now rewrite Hc.
  - change (PyStr.rstrip (String c (String d r)) = String c (String d r)).
    simpl PyStr.rstrip at 1. fold PyStr.rstrip.
    change (match PyStr.rstrip (String d r) with
            | EmptyString =>
                if PyStr.isspace c then EmptyString else String c EmptyString
            | String a s0 => String c (String a s0)
            end = String c (String d r)).
    now rewrite IH.
Qed.

Lemma lstrip_head s :
  PyStr.lstrip s = EmptyString
  \/ exists c t, PyStr.lstrip s = String c t /\ PyStr.isspace c = false.
Proof.
  induction s as [|c s IH]; [now left|].
  simpl. destruct (PyStr.isspace c) eqn:Hc; [exact IH|].
  right. now exists c, s.
Qed.

Lemma strip_idempotent s : PyStr.strip (PyStr.strip s) = PyStr.strip s.
Proof.
  unfold PyStr.strip.
  destruct (lstrip_head s) as [-> | (c & t & -> & Hc)]; [reflexivity|].
  rewrite (rstrip_cons_nonspace c t Hc). simpl PyStr.lstrip. rewrite Hc.
  rewrite <- (rstrip_cons_nonspace c t Hc). apply rstrip_idempotent.
Qed.

Lemma startswith_empty s : PyStr.startswith s EmptyString = true.
Proof. now destruct s. Qed.

Lemma contains_unfold sub s :
  PyStr.contains sub s
  = PyStr.startswith s sub
    || match s with
       | EmptyString => false
       | String _ s' => PyStr.contains sub s'
       end.
Proof. now destruct s. Qed.

Lemma startswith_app_contains a b : forall s,
  PyStr.startswith s (a ++ b)%string = true -> PyStr.contains b s = true.
Proof.
  induction a as [|x a IH]; intros s H.
  - rewrite contains_unfold. simpl in H. now rewrite H.
  - destruct s as [|y s]; [discriminate H|].
    simpl in H. apply andb_true_iff in H as [_ H].
    apply IH in H. rewrite contains_unfold, H. apply orb_true_r.
Qed.

(** ** More on response extraction *)

Lemma find_raising_raises {A : Type} (cond : A -> result bool) (l : list A) e :
  find_raising cond l = Raise e -> exists x, In x l /\ cond x = Raise e.
Proof.
  induction l as [|x l IH]; simpl; [discriminate|].
  destruct (cond x) as [[|]|e'] eqn:E.
  - discriminate.
  - intros H. destruct (IH H) as (y & Hy & Ey). exists y. now split; [right|].
  - intros [= ->]. exists x. now split; [left|].
Qed.

(** X1: rule 1 looks no further back than the message it selects.  When an
    AI message named [*_agent] is meaningful and every later message is
    passed over by the first loop, its stripped content is the answer,
    whatever stands before it, a nameless AI message included. *)
Theorem most_recent_agent_message_wins pre m post n :
  isinstance_AIMessage m = true ->
  name m = Val n ->
  Re.match_agent n = true ->
  is_meaningful m = true ->
  Forall (fun x => is_meaningful_agent_message x = Ok false) post ->
  extract_from_messages (pre ++ m :: post) = Ok (PyStr.strip (content m)).
Proof.
  intros Hai Hname Hmatch Hm Hpost. apply extract_first_loop; [|assumption].
  unfold is_meaningful_agent_message, name_matches_agent.
  rewrite Hai, Hname. simpl. now rewrite Hmatch, Hm.
Qed.

Lemma most_recent_agent_message_wins_witness :
  extract_from_messages
    ([ai "hello" IsNone]
       ++ ai " Stock level for SKU123 is 42 " (Val "stock_agent")
       :: [ai "transferring back to supervisor" (Val "stock_agent");
           ai "Anything else?" (Val "supervisor");
           human "thanks"])
  = Ok "Stock level for SKU123 is 42".
Proof.
  apply (most_recent_agent_message_wins [ai "hello" IsNone]
           (ai " Stock level for SKU123 is 42 " (Val "stock_agent"))
           [ai "transferring back to supervisor" (Val "stock_agent");
            ai "Anything else?" (Val "supervisor");
            human "thanks"]
           "stock_agent");
    try reflexivity.
  repeat constructor.
Defined.

(** X2: rule 3 hands out what the filter rejected.  When the first loop
    selects nothing and no message is meaningful, the answer is the stripped
    content of the most recent AI message with non-empty content, be it a
    handoff line or the text of a tool-call intent. *)
Theorem filtered_out_message_is_last_resort ms m :
  (forall x, In x ms -> is_meaningful_agent_message x = Ok false) ->
  Forall (fun x => is_meaningful x = false) ms ->
  most_recent is_nonempty_ai ms m ->
  extract_from_messages ms = Ok (PyStr.strip (content m))
  /\ is_meaningful m = false.
Proof.
  intros Hfirst Hnone Hm. split.
  - now apply extract_third_loop.
  - destruct Hm as (pre & post & -> & _ & _).
    rewrite Forall_forall in Hnone. apply Hnone.
    apply in_or_app. right. now left.
Qed.

Lemma filtered_out_message_is_last_resort_witness :
  extract_from_messages
    [human "Where is my order?";
     ai "Transferring to order_agent" (Val "supervisor");
     human "ok"]
  = Ok "Transferring to order_agent"
  /\ is_meaningful (ai "Transferring to order_agent" (Val "supervisor")) = false.
Proof.
  apply (filtered_out_message_is_last_resort
           [human "Where is my order?";
            ai "Transferring to order_agent" (Val "supervisor");
            human "ok"]
           (ai "Transferring to order_agent" (Val "supervisor"))).
  - intros x [<-|[<-|[<-|[]]]]; reflexivity.
  - repeat constructor.
  - exists [human "Where is my order?"], [human "ok"].
    repeat split. repeat constructor.
Defined.

(** X3: the extraction raises nothing but [TypeError], and only on a
    transcript that holds an AI message whose name is [None]. *)
Theorem extract_raises_only_for_unnamed_ai ms e :
  extract_from_messages ms = Raise e ->
  e = TypeError
  /\ exists m, In m ms /\ isinstance_AIMessage m = true /\ name m = IsNone.
Proof.
  intros H. split; [now apply (extract_raises_only_TypeError ms)|].
  unfold extract_from_messages in H.
  destruct (find_raising _ _) as [[m|]|e'] eqn:E.
  - discriminate.
  - destruct (find is_meaningful _); [discriminate|].
    destruct (find is_nonempty_ai _); discriminate.
  - apply find_raising_raises in E as (m & Hin & Hm).
    exists m. split; [now apply in_rev|].
    unfold is_meaningful_agent_message, name_matches_agent in Hm.
    destruct (isinstance_AIMessage m); [|discriminate].
    split; [reflexivity|].
    destruct (name m) as [| |n]; simpl in Hm.
    + destruct (Re.match_agent ""); discriminate.
    + reflexivity.
    + destruct (Re.match_agent n); discriminate.
Qed.

Lemma extract_raises_only_for_unnamed_ai_witness :
  TypeError = TypeError
  /\ exists m, In m [human "hi"; ai "" IsNone]
               /\ isinstance_AIMessage m = true /\ name m = IsNone.
Proof.
  apply (extract_raises_only_for_unnamed_ai [human "hi"; ai "" IsNone]).
  reflexivity.
Defined.

(** X4: whatever the extraction returns is already stripped: stripping it
    again changes nothing, so no answer starts or ends with whitespace. *)
Theorem extracted_response_is_stripped ms s :
  extract_from_messages ms = Ok s -> PyStr.strip s = s.
Proof.
  unfold extract_from_messages.
  destruct (find_raising _ _) as [[m|]|e]; [| |discriminate].
  - intros [= <-]. apply strip_idempotent.
  - destruct (find is_meaningful _) as [m|].
    + intros [= <-]. apply strip_idempotent.
    + destruct (find is_nonempty_ai _) as [m|]; intros [= <-].
      * apply strip_idempotent.
      * reflexivity.
Qed.

Lemma extracted_response_is_stripped_witness :
  PyStr.strip "Stock level for SKU123 is 42" = "Stock level for SKU123 is 42".
Proof.
  apply (extracted_response_is_stripped
           [ai "  Stock level for SKU123 is 42  " (Val "stock_agent")]).
  reflexivity.
Defined.

(** X5: a content of whitespace only counts as meaningful.  An agent message
    without tool calls whose content is non-empty but blank passes the
    filter, and when it is the most recent agent message the answer is the
    empty string instead of an earlier message or the literal fallback. *)
Theorem blank_agent_message_yields_empty_answer pre m post n :
  isinstance_AIMessage m = true ->
  name m = Val n ->
  Re.match_agent n = true ->
  content m <> "" ->
  PyStr.strip (content m) = "" ->
  has_tool_calls m = false ->
  Forall (fun x => is_meaningful_agent_message x = Ok false) post ->
  is_meaningful m = true
  /\ extract_from_messages (pre ++ m :: post) = Ok "".
Proof.
  intros Hai Hname Hmatch Hne Hblank Hcalls Hpost.
  assert (Hm : is_meaningful m = true).
  { unfold is_meaningful. rewrite Hai, Hblank, Hcalls.
    destruct (content m); [congruence|reflexivity]. }
  split; [exact Hm|].
  rewrite <- Hblank. apply extract_first_loop; [|assumption].
  unfold is_meaningful_agent_message, name_matches_agent.
  rewrite Hai, Hname. simpl. now rewrite Hmatch, Hm.
Qed.

Lemma blank_agent_message_yields_empty_answer_witness :
  is_meaningful (ai "   " (Val "stock_agent")) = true
  /\ extract_from_messages
       ([ai "Stock level for SKU123 is 42" (Val "stock_agent")]
          ++ ai "   " (Val "stock_agent") :: [human "thanks"])
     = Ok "".
Proof.
  apply (blank_agent_message_yields_empty_answer
           [ai "Stock level for SKU123 is 42" (Val "stock_agent")]
           (ai "   " (Val "stock_agent")) [human "thanks"] "stock_agent");
    try reflexivity.
  - discriminate.
  - repeat constructor.
Defined.

Lemma startswith_app_l b c : forall s,
  PyStr.startswith s (b ++ c)%string = true -> PyStr.startswith s b = true.
Proof.
  induction b as [|x b IH]; intros s H; [apply startswith_empty|].
  destruct s as [|y s]; [discriminate H|].
  simpl in *. apply andb_true_iff in H as [-> H]. now rewrite (IH s H).
Qed.

(** X6: in [is_meaningful_response] the two tests for the prefixes
    "transferring back to" and "successfully transferred" never decide: the
    result is that of the two substring tests and of the two case-sensitive
    prefix tests alone. *)
Theorem transfer_prefix_tests_never_decide content :
  is_meaningful_response content
  = negb (PyStr.contains "transferring" (PyStr.lower content))
    && negb (PyStr.contains "transferred" (PyStr.lower content))
    && negb (PyStr.startswith content "i have successfully")
    && negb (PyStr.startswith content "if you have any further").
Proof.
  unfold is_meaningful_response.
  destruct (PyStr.contains "transferring" (PyStr.lower content)) eqn:E1;
    [reflexivity|].
  destruct (PyStr.contains "transferred" (PyStr.lower content)) eqn:E2;
    [reflexivity|].
  destruct (PyStr.startswith (PyStr.lower content) "transferring back to")
    eqn:E3.
  { apply (startswith_app_l "transferring" " back to") in E3.
    rewrite contains_unfold, E3 in E1. discriminate E1. }
  destruct (PyStr.startswith (PyStr.lower content) "successfully transferred")
    eqn:E4.
  { apply (startswith_app_contains "successfully " "transferred") in E4.
    congruence. }
  reflexivity.
Qed.

(** ** The agent name pattern *)

Lemma endswith_unfold s p :
  PyStr.endswith s p
  = String.eqb s p
    || match s with
       | EmptyString => false
       | String _ s' => PyStr.endswith s' p
       end.
Proof. now destruct s. Qed.

Lemma endswith_iff suf s :
  PyStr.endswith s suf = true <-> exists p, s = (p ++ suf)%string.
Proof.
  split.
  - induction s as [|c s IH]; rewrite endswith_unfold; intros H.
    + rewrite orb_false_r in H. apply String.eqb_eq in H. now exists "".
    + apply orb_true_iff in H as [H|H].
      * apply String.eqb_eq in H. now exists "".
      * destruct (IH H) as [p ->]. now exists (String c p).
  - intros [p ->]. induction p as [|c p IH].
    + rewrite endswith_unfold. simpl append. now rewrite String.eqb_refl.
    + change (String.eqb (String c (p ++ suf)) suf
              || PyStr.endswith (p ++ suf) suf = true).
      rewrite IH. apply orb_true_r.
Qed.

Lemma chop_final_newline_iff s t :
  Re.chop_final_newline s = Some t
  <-> s = (t ++ String Re.newline "")%string.
Proof.
  split.
  - revert t. induction s as [|c s IH]; intros t H; [discriminate H|].
    simpl in H. destruct s as [|d s].
    + destruct (Ascii.eqb c Re.newline) eqn:E; [|discriminate H].
      apply Ascii.eqb_eq in E. injection H as <-. now subst c.
    + destruct (Re.chop_final_newline (String d s)) as [t'|]; [|discriminate H].
      injection H as <-. simpl. now rewrite (IH t' eq_refl).
  - intros ->. induction t as [|c t IH]; [reflexivity|].
    simpl. simpl in IH. rewrite IH.
    now destruct (t ++ String Re.newline "")%string eqn:E; [destruct t|].
Qed.

Lemma contains_newline_agent p :
  PyStr.contains (String Re.newline "") (p ++ "_agent")
  = PyStr.contains (String Re.newline "") p.
Proof.
  induction p as [|c p IH]; [reflexivity|].
  simpl. now rewrite IH, !startswith_empty.
Qed.

Lemma append_assoc_string (a b c : string) :
  ((a ++ b) ++ c = a ++ (b ++ c))%string.
Proof.
  induction a as [|x a IH]; simpl; [reflexivity|]. now rewrite IH.
Qed.

Lemma dotstar_agent_iff t :
  Re.dotstar_agent t = true
  <-> exists p, t = (p ++ "_agent")%string
                /\ PyStr.contains (String Re.newline "") p = false.
Proof.
  unfold Re.dotstar_agent. rewrite andb_true_iff, negb_true_iff, endswith_iff.
  split.
  - intros [H [p ->]]. exists p. split; [reflexivity|].
    now rewrite contains_newline_agent in H.
  - intros (p & -> & H). split; [|now exists p].
    now rewrite contains_newline_agent.
Qed.

(** X7: which names count as agent names.  [re.match(r".*_agent$", s)]
    succeeds exactly when [s] is some text without a newline followed by
    "_agent", or that followed by one final newline: the test is on the
    suffix alone, and "supervisor" fails it. *)
Theorem agent_name_pattern s :
  Re.match_agent s = true
  <-> exists p,
        PyStr.contains (String Re.newline "") p = false
        /\ (s = (p ++ "_agent")%string
            \/ s = (p ++ "_agent" ++ String Re.newline "")%string).
Proof.
  unfold Re.match_agent. rewrite orb_true_iff. split.
  - intros [H|H].
    + apply dotstar_agent_iff in H as (p & -> & Hp). exists p. now split; [|left].
    + destruct (Re.chop_final_newline s) as [t|] eqn:E; [|discriminate H].
      apply chop_final_newline_iff in E. subst s.
      apply dotstar_agent_iff in H as (p & -> & Hp). exists p.
      split; [assumption|]. right. apply append_assoc_string.
  - intros (p & Hp & [-> | ->]).
    + left. apply dotstar_agent_iff. now exists p.
    + right.
      assert (E : Re.chop_final_newline (p ++ "_agent" ++ String Re.newline "")
                  = Some (p ++ "_agent")%string).
      { apply chop_final_newline_iff. symmetry. apply append_assoc_string. }
      rewrite E. apply dotstar_agent_iff. now exists p.
Qed.

(** ** The streaming path *)

Section StreamingFacts.
Context `{B : Builtins} `{J : Serializer}.

Lemma is_valid_ai_message_true m :
  is_valid_ai_message m = Ok true ->
  isinstance_AIMessage m = true
  /\ nonblank m = true
  /\ is_meaningful_response (content m) = true
  /\ exists n, getattr (name m) "" = Some n /\ Re.match_agent n = true.
Proof.
  unfold is_valid_ai_message, name_matches_agent, nonblank.
  destruct (isinstance_AIMessage m); [|discriminate].
  destruct (PyStr.truthy (PyStr.strip (content m))); [|discriminate].
  destruct (is_meaningful_response (content m)); [|discriminate].
  simpl. destruct (getattr (name m) "") as [n|]; [|discriminate].
  intros [= H]. repeat split. now exists n.
Qed.

(** X8: the stream ends at the first interruption.  Whatever the workflow
    yields after a dict that carries ["__interrupt__"] has no effect on what
    [stream_agent_response] yields. *)
Theorem stream_stops_at_interrupt pre chunk d interrupts post :
  chunk_message chunk = Ok (ItemDict d) ->
  stream_interrupts d = Some interrupts ->
  stream_agent_response (pre ++ Ok chunk :: post)
  = stream_agent_response (pre ++ [Ok chunk]).
Proof.
  intros Hc Hd. induction pre as [|[c|e] pre IH]; simpl.
  - now rewrite Hc, Hd.
  - destruct (chunk_message c) as [[m|d']|e]; [| |reflexivity].
    + destruct (is_valid_ai_message m) as [[|]|e]; [|exact IH|reflexivity].
      now rewrite IH.
    + destruct (stream_interrupts d'); [reflexivity|exact IH].
  - reflexivity.
Qed.

(** X9: while nothing raises and nothing interrupts, the stream yields, in
    order, the contents of exactly the messages that [is_valid_ai_message]
    accepts, each as it is (not stripped). *)
Theorem stream_yields_valid_contents (messages : list Message) :
  Forall (fun m => isinstance_AIMessage m = true -> name m <> IsNone)
    messages ->
  stream_agent_response
    (map (fun m => Ok (ChunkItem (ItemMessage m))) messages)
  = map content
      (filter (fun m => match is_valid_ai_message m with
                        | Ok b => b
                        | Raise _ => false
                        end) messages).
Proof.
  induction 1 as [|m ms Hm _ IH]; simpl; [reflexivity|].
  assert (E : exists b, is_valid_ai_message m = Ok b).
  { destruct (isinstance_AIMessage m) eqn:Hai.
    - apply is_valid_ai_message_returns_when_named. now apply Hm.
    - exists false. unfold is_valid_ai_message. now rewrite Hai. }
  destruct E as [[|] ->]; simpl; now rewrite IH.
Qed.

(** X10: the shape of every stream.  What is yielded is a run of contents,
    each the content of an AI message of the stream that is named [*_agent],
    is not blank and passes [is_meaningful_response], followed by nothing,
    by the one error line, or by one serialised interruption. *)
Theorem stream_shape (chunks : list (result Chunk)) :
  exists contents tail,
    stream_agent_response chunks = contents ++ tail
    /\ (tail = []
        \/ tail = [stream_error]
        \/ exists interrupt payload,
             interruption_payload interrupt = Ok payload
             /\ tail = [json_dumps payload])
    /\ Forall
         (fun text =>
            exists chunk m,
              In (Ok chunk) chunks
              /\ chunk_message chunk = Ok (ItemMessage m)
              /\ text = content m
              /\ isinstance_AIMessage m = true
              /\ nonblank m = true
              /\ is_meaningful_response (content m) = true
              /\ exists n, getattr (name m) "" = Some n
                           /\ Re.match_agent n = true)
         contents.
Proof.
  induction chunks as [|[c|e] chunks IH].
  - exists [], []. repeat split; [now left|constructor].
  - destruct IH as (contents & tail & Hs & Ht & Hc).
    assert (Hc' : Forall
              (fun text =>
                 exists chunk m,
                   In (Ok chunk) (Ok c :: chunks)
                   /\ chunk_message chunk = Ok (ItemMessage m)
                   /\ text = content m
                   /\ isinstance_AIMessage m = true
                   /\ nonblank m = true
                   /\ is_meaningful_response (content m) = true
                   /\ exists n, getattr (name m) "" = Some n
                                /\ Re.match_agent n = true)
              contents).
    { eapply Forall_impl; [|exact Hc].
      intros text (chunk & m & Hin & H). exists chunk, m.
      split; [now right|exact H]. }
    simpl. destruct (chunk_message c) as [[m|d]|e] eqn:Ec.
    + destruct (is_valid_ai_message m) as [[|]|e] eqn:Ev.
      * exists (content m :: contents), tail. rewrite Hs.
        split; [reflexivity|]. split; [exact Ht|].
        constructor; [|exact Hc'].
        exists c, m. split; [now left|]. split; [exact Ec|].
        split; [reflexivity|]. now apply is_valid_ai_message_true.
      * exists contents, tail. now rewrite Hs.
      * exists [], [stream_error]. repeat split; [now right; left|constructor].
    + unfold extract_interrupt_message.
      destruct (stream_interrupts d) as [[|i l]|].
      * exists [], [stream_error]. repeat split; [now right; left|constructor].
      * destruct (interruption_payload i) as [payload|e] eqn:Ep; simpl.
        -- exists [], [json_dumps payload].
           repeat split; [|constructor]. right. right. now exists i, payload.
        -- exists [], [stream_error].
           repeat split; [now right; left|constructor].
      * exists contents, tail. now rewrite Hs.
    + exists [], [stream_error]. repeat split; [now right; left|constructor].
  - exists [], [stream_error]. repeat split; [now right; left|constructor].
Qed.

End StreamingFacts.

Lemma stream_stops_at_interrupt_witness :
  stream_agent_response (B := plain_builtins) (J := plain_serializer)
    ([Ok (message_chunk (ai "Deleting ABC." (Val "product_agent")))]
       ++ Ok interrupt_chunk
       :: [Ok (message_chunk (ai "Deleted." (Val "product_agent")))])
  = stream_agent_response (B := plain_builtins) (J := plain_serializer)
      ([Ok (message_chunk (ai "Deleting ABC." (Val "product_agent")))]
         ++ [Ok interrupt_chunk]).
Proof.
  apply (stream_stops_at_interrupt (B := plain_builtins)
           (J := plain_serializer)
           [Ok (message_chunk (ai "Deleting ABC." (Val "product_agent")))]
           interrupt_chunk (mkStreamDict (Some [delete_product_interrupt]))
           [delete_product_interrupt]);
    reflexivity.
Defined.

Lemma stream_yields_valid_contents_witness :
  stream_agent_response (B := plain_builtins) (J := plain_serializer)
    (map (fun m => Ok (ChunkItem (ItemMessage m)))
       [human "stock of SKU123?";
        ai "transferring to stock_agent" (Val "supervisor");
        ai " Stock level for SKU123 is 42" (Val "stock_agent");
        ai "Anything else?" (Val "supervisor")])
  = [" Stock level for SKU123 is 42"].
Proof.
  apply (stream_yields_valid_contents (B := plain_builtins)
           (J := plain_serializer)
           [human "stock of SKU123?";
            ai "transferring to stock_agent" (Val "supervisor");
            ai " Stock level for SKU123 is 42" (Val "stock_agent");
            ai "Anything else?" (Val "supervisor")]).
  repeat constructor; discriminate.
Defined.

(** ** More on the chat handlers *)

Section MoreHandlerFacts.
Context `{W : Workflow} `{J : Serializer}.

Lemma except_clauses_state (body : M Server Response) (s : Server) :
  snd (except_clauses body s) = snd (body s).
Proof.
  unfold except_clauses. destruct (body s) as [[r|e] s']; [reflexivity|].
  now destruct e.
Qed.

Lemma final_response_state (r : WorkflowResult) (s : Server) :
  snd (final_response r s) = s.
Proof.
  unfold final_response, bind, lift, ret.
  now destruct (extract_final_response r).
Qed.

(** The 500 answer of the chat handlers for the exception [e]. *)
Lemma except_clauses_500 (body : M Server Response) (s s' : Server) e :
  body s = (Raise e, s') ->
  (forall code detail, e <> HTTPException code detail) ->
  except_clauses body s
  = (Ok (JSONResponse 500
           (PyDict
              [("error", PyStr ("Internal server error: " ++ exn_str e));
               ("response",
                PyStr "I apologize, but I'm experiencing technical difficulties. Please try again.");
               ("products", PyList []);
               ("message_count", PyInt 0)])),
     s').
Proof.
  intros Hb He. unfold except_clauses. rewrite Hb.
  destruct e; try reflexivity. now destruct (He status_code detail).
Qed.

Lemma index0_exn v e :
  index0 v = Raise e -> forall code detail, e <> HTTPException code detail.
Proof.
  destruct v as [| | |[|c t]|[|x l]|d]; simpl; intros [= <-]; discriminate.
Qed.

Lemma get_exn v k default e :
  get v k default = Raise e -> e = AttributeError.
Proof.
  destruct v; simpl; congruence.
Qed.

Lemma interruption_payload_exn (i : Interrupt.t) e :
  interruption_payload i = Raise e ->
  forall code detail, e <> HTTPException code detail.
Proof.
  unfold interruption_payload, and_then.
  destruct (index0 (Interrupt.value i)) as [value|e0] eqn:E0.
  2: { intros [= <-]. exact (index0_exn _ _ E0). }
  destruct (get value "action_request" (PyDict [])) as [ar|e1] eqn:E1.
  2: { intros [= <-]. rewrite (get_exn _ _ _ _ E1). discriminate. }
  destruct (get ar "action" (PyStr "unknown")) as [tool|e2] eqn:E2.
  2: { intros [= <-]. rewrite (get_exn _ _ _ _ E2). discriminate. }
  destruct (get ar "args" (PyDict [])) as [args|e3] eqn:E3.
  2: { intros [= <-]. rewrite (get_exn _ _ _ _ E3). discriminate. }
  destruct (get value "description" (PyStr "")) as [d|e4] eqn:E4.
  2: { intros [= <-]. rewrite (get_exn _ _ _ _ E4). discriminate. }
  discriminate.
Qed.

(** The interrupt branch of the handler of src/backend computes the payload
    of the streaming path. *)
Lemma backend_chat_body_interrupted
    (request : ChatRequest) (s : Server) r w i rest :
  session_id_given request = true ->
  run_workflow_command (message request) (PyStr "") (str_session_id request)
    (world s) = (Ok r, w) ->
  result_interrupt r = Some (InterruptList (i :: rest)) ->
  fst (BackendRoutes.chat_body request s)
  = match interruption_payload i with
    | Ok payload => Ok (JSONResponse 200 payload)
    | Raise e => Raise e
    end.
Proof.
  intros Hsid Hrun Hint.
  unfold BackendRoutes.chat_body, interruption_payload.
  rewrite Hsid. simpl. unfold bind at 1. unfold call_run_workflow_command.
  rewrite Hrun. simpl. rewrite Hint.
  unfold bind, lift, ret, and_then.
  destruct (index0 (Interrupt.value i)) as [value|e]; [|reflexivity].
  destruct (get value "action_request" (PyDict [])) as [ar|e]; [|reflexivity].
  destruct (get ar "action" (PyStr "unknown")) as [tool|e]; [|reflexivity].
  destruct (get ar "args" (PyDict [])) as [args|e]; [|reflexivity].
  destruct (get value "description" (PyStr "")) as [d|e]; reflexivity.
Qed.

(** X11: the chat handler of src/backend and the streaming path report an
    interruption alike: when the payload can be read off the interrupt, the
    handler answers 200 with it and [extract_interrupt_message] serialises
    the same dict; when it cannot, the handler answers 500 and
    [extract_interrupt_message] raises. *)
Theorem backend_chat_and_stream_agree
    (request : ChatRequest) (s : Server) r w i rest :
  session_id_given request = true ->
  run_workflow_command (message request) (PyStr "") (str_session_id request)
    (world s) = (Ok r, w) ->
  result_interrupt r = Some (InterruptList (i :: rest)) ->
  match interruption_payload i with
  | Ok payload =>
      fst (BackendRoutes.chat_with_agent request s)
      = Ok (JSONResponse 200 payload)
      /\ extract_interrupt_message (mkStreamDict (Some (i :: rest)))
         = Ok (json_dumps payload)
  | Raise e =>
      http_status (fst (BackendRoutes.chat_with_agent request s)) = 500%Z
      /\ extract_interrupt_message (mkStreamDict (Some (i :: rest)))
         = Raise e
  end.
Proof.
  intros Hsid Hrun Hint.
  pose proof (backend_chat_body_interrupted request s r w i rest
                Hsid Hrun Hint) as Hbody.
  unfold BackendRoutes.chat_with_agent, extract_interrupt_message. simpl.
  destruct (BackendRoutes.chat_body request s) as [out s'] eqn:Eb.
  simpl in Hbody. subst out.
  destruct (interruption_payload i) as [payload|e] eqn:Ep.
  - unfold except_clauses. rewrite Eb. split; reflexivity.
  - rewrite (except_clauses_500 _ s s' e Eb
               (interruption_payload_exn i e Ep)).
    split; reflexivity.
Qed.

(** X12: a chat request with a session identifier runs the workflow exactly
    once, on the message and the session identifier of the request, in both
    handlers and whatever the outcome; nothing else touches the server. *)
Theorem chat_invokes_workflow_once (request : ChatRequest) (s : Server) :
  session_id_given request = true ->
  snd (ModulesRoutes.chat_with_agent request s)
  = mkServer W
      (snd (run_workflow (message request) (str_session_id request) (world s)))
      (invocations s ++ [(message request, str_session_id request)])
  /\ snd (BackendRoutes.chat_with_agent request s)
     = mkServer W
         (snd (run_workflow_command (message request) (PyStr "")
                 (str_session_id request) (world s)))
         (invocations s ++ [(message request, str_session_id request)]).
Proof.
  intros Hsid. split.
  - unfold ModulesRoutes.chat_with_agent. rewrite except_clauses_state.
    unfold ModulesRoutes.chat_body. rewrite Hsid. simpl.
    unfold bind, call_run_workflow.
    destruct (run_workflow _ _ _) as [[r|e] w]; [|reflexivity].
    destruct (result_interrupt r) as [[[|i l]|]|];
      try reflexivity; apply final_response_state.
  - unfold BackendRoutes.chat_with_agent. rewrite except_clauses_state.
    unfold BackendRoutes.chat_body. rewrite Hsid. simpl.
    unfold bind at 1. unfold call_run_workflow_command.
    destruct (run_workflow_command _ _ _ _) as [[r|e] w]; [|reflexivity].
    destruct (result_interrupt r) as [[[|i l]|]|];
      try reflexivity; try apply final_response_state.
    unfold bind, lift, ret.
    destruct (index0 (Interrupt.value i)) as [value|e]; [|reflexivity].
    destruct (get value "action_request" (PyDict [])) as [ar|e];
      [|reflexivity].
    destruct (get ar "action" (PyStr "unknown")) as [tool|e]; [|reflexivity].
    destruct (get ar "args" (PyDict [])) as [args|e]; [|reflexivity].
    destruct (get value "description" (PyStr "")) as [d|e]; reflexivity.
Qed.

(** X13: what a failing workflow turns into.  An [HTTPException] raised by
    the workflow leaves the chat handler as it is; any other exception is
    answered with status 500 and a body that quotes the text of the
    exception after "Internal server error: ". *)
Theorem chat_converts_workflow_failure (request : ChatRequest) (s : Server) e w :
  session_id_given request = true ->
  run_workflow (message request) (str_session_id request) (world s)
  = (Raise e, w) ->
  match e with
  | HTTPException code detail =>
      fst (ModulesRoutes.chat_with_agent request s)
      = Raise (HTTPException code detail)
  | _ =>
      fst (ModulesRoutes.chat_with_agent request s)
      = Ok (JSONResponse 500
              (PyDict
                 [("error", PyStr ("Internal server error: " ++ exn_str e));
                  ("response",
                   PyStr "I apologize, but I'm experiencing technical difficulties. Please try again.");
                  ("products", PyList []);
                  ("message_count", PyInt 0)]))
  end.
Proof.
  intros Hsid Hrun.
  unfold ModulesRoutes.chat_with_agent, except_clauses,
    ModulesRoutes.chat_body.
  rewrite Hsid. simpl. unfold bind, call_run_workflow. rewrite Hrun.
  destruct e; reflexivity.
Qed.

(** X14: a turn that is not interrupted, be it that the result has no
    ["__interrupt__"] or that the entry is not a list, is answered in both
    handlers with the extracted text, and with status 500 when the
    extraction raises. *)
Theorem uninterrupted_chat_answers_with_extraction
    (request : ChatRequest) (s : Server) r w w' :
  session_id_given request = true ->
  run_workflow (message request) (str_session_id request) (world s)
  = (Ok r, w) ->
  run_workflow_command (message request) (PyStr "") (str_session_id request)
    (world s) = (Ok r, w') ->
  result_interrupt r = None \/ result_interrupt r = Some InterruptNotAList ->
  match extract_final_response r with
  | Ok text =>
      fst (ModulesRoutes.chat_with_agent request s) = Ok (ChatResponse text)
      /\ fst (BackendRoutes.chat_with_agent request s)
         = Ok (ChatResponse text)
  | Raise _ =>
      http_status (fst (ModulesRoutes.chat_with_agent request s)) = 500%Z
      /\ http_status (fst (BackendRoutes.chat_with_agent request s)) = 500%Z
  end.
Proof.
  intros Hsid Hrun Hrun' Hint.
  unfold ModulesRoutes.chat_with_agent, BackendRoutes.chat_with_agent,
    except_clauses, ModulesRoutes.chat_body, BackendRoutes.chat_body.
  rewrite Hsid. simpl.
  unfold bind, call_run_workflow, call_run_workflow_command.
  rewrite Hrun, Hrun'. simpl.
  assert (E : extract_final_response r = Raise TypeError
              \/ exists t, extract_final_response r = Ok t).
  { destruct (extract_final_response r) as [t|e] eqn:E; [right; eauto|].
    left. f_equal. now apply (extract_raises_only_TypeError _ _ E). }
  destruct Hint as [-> | ->]; unfold final_response, bind, lift, ret;
    destruct E as [-> | [t ->]]; split; reflexivity.
Qed.

(** X15: an empty ["__interrupt__"] list is answered with status 500 by
    both handlers: they index it without looking at its length. *)
Theorem empty_interrupt_list_is_500
    (request : ChatRequest) (s : Server) r w w' :
  session_id_given request = true ->
  run_workflow (message request) (str_session_id request) (world s)
  = (Ok r, w) ->
  run_workflow_command (message request) (PyStr "") (str_session_id request)
    (world s) = (Ok r, w') ->
  result_interrupt r = Some (InterruptList []) ->
  http_status (fst (ModulesRoutes.chat_with_agent request s)) = 500%Z
  /\ http_status (fst (BackendRoutes.chat_with_agent request s)) = 500%Z.
Proof.
  intros Hsid Hrun Hrun' Hint.
  unfold ModulesRoutes.chat_with_agent, BackendRoutes.chat_with_agent,
    except_clauses, ModulesRoutes.chat_body, BackendRoutes.chat_body.
  rewrite Hsid. simpl.
  unfold bind, call_run_workflow, call_run_workflow_command.
  rewrite Hrun, Hrun'. simpl. rewrite Hint. split; reflexivity.
Qed.

(** X16: what the payload holds when the interrupt names no action.  If the
    first element of [interrupt.value] is a dict without "action_request",
    the interruption has the type "unknown", empty arguments, and the
    description of the dict, or "" without one, as its message. *)
Theorem interruption_defaults (i : Interrupt.t) v vs :
  Interrupt.value i = PyList (PyDict v :: vs) ->
  lookup "action_request" v = None ->
  interruption_payload i
  = Ok (PyDict
          [("response", PyStr (str (Interrupt.value i)));
           ("interruption",
            PyDict [("type", PyStr "unknown");
                    ("message",
                     match lookup "description" v with
                     | Some description => description
                     | None => PyStr ""
                     end);
                    ("args", PyDict [])])]).
Proof.
  intros Hv Har. unfold interruption_payload, and_then.
  rewrite Hv. simpl. now rewrite Har.
Qed.

End MoreHandlerFacts.

Lemma backend_chat_and_stream_agree_witness :
  fst (BackendRoutes.chat_with_agent
         (W := constant_workflow interrupted_result) delete_request
         (fresh_server interrupted_result))
  = Ok (JSONResponse 200
          (PyDict
             [("response", PyStr "<value>");
              ("interruption",
               PyDict [("type", PyStr "delete_product");
                       ("message", PyStr "Delete product ABC?");
                       ("args", PyDict [("sku", PyStr "ABC")])])]))
  /\ extract_interrupt_message (B := plain_builtins) (J := plain_serializer)
       (mkStreamDict (Some [delete_product_interrupt]))
     = Ok "<json>".
Proof.
  exact (backend_chat_and_stream_agree
           (W := constant_workflow interrupted_result)
           (J := plain_serializer) delete_request
           (fresh_server interrupted_result) interrupted_result 1
           delete_product_interrupt [] eq_refl eq_refl eq_refl).
Defined.

Lemma chat_invokes_workflow_once_witness :
  snd (ModulesRoutes.chat_with_agent
         (W := constant_workflow plain_result) delete_request
         (fresh_server plain_result))
  = mkServer (constant_workflow plain_result) 1
      [("delete product ABC", "s1")]
  /\ snd (BackendRoutes.chat_with_agent
            (W := constant_workflow plain_result) delete_request
            (fresh_server plain_result))
     = mkServer (constant_workflow plain_result) 1
         [("delete product ABC", "s1")].
Proof.
  exact (chat_invokes_workflow_once (W := constant_workflow plain_result)
           delete_request (fresh_server plain_result) eq_refl).
Defined.

Lemma chat_converts_workflow_failure_witness :
  fst (ModulesRoutes.chat_with_agent
         (W := failing_workflow (Exception "timeout")) delete_request
         (mkServer (failing_workflow (Exception "timeout")) 0 []))
  = Ok (JSONResponse 500
          (PyDict
             [("error", PyStr "Internal server error: <exception>");
              ("response",
               PyStr "I apologize, but I'm experiencing technical difficulties. Please try again.");
              ("products", PyList []);
              ("message_count", PyInt 0)])).
Proof.
  exact (chat_converts_workflow_failure
           (W := failing_workflow (Exception "timeout")) delete_request
           (mkServer (failing_workflow (Exception "timeout")) 0 [])
           (Exception "timeout") 1 eq_refl eq_refl).
Defined.

Lemma uninterrupted_chat_answers_with_extraction_witness :
  fst (ModulesRoutes.chat_with_agent
         (W := constant_workflow plain_result) delete_request
         (fresh_server plain_result))
  = Ok (ChatResponse "Stock level for SKU123 is 42")
  /\ fst (BackendRoutes.chat_with_agent
            (W := constant_workflow plain_result) delete_request
            (fresh_server plain_result))
     = Ok (ChatResponse "Stock level for SKU123 is 42").
Proof.
  exact (uninterrupted_chat_answers_with_extraction
           (W := constant_workflow plain_result) delete_request
           (fresh_server plain_result) plain_result 1 1
           eq_refl eq_refl eq_refl (or_introl eq_refl)).
Defined.

Lemma empty_interrupt_list_is_500_witness :
  http_status
    (fst (ModulesRoutes.chat_with_agent
            (W := constant_workflow empty_interrupt_result) delete_request
            (fresh_server empty_interrupt_result))) = 500%Z
  /\ http_status
       (fst (BackendRoutes.chat_with_agent
               (W := constant_workflow empty_interrupt_result) delete_request
               (fresh_server empty_interrupt_result))) = 500%Z.
Proof.
  exact (empty_interrupt_list_is_500
           (W := constant_workflow empty_interrupt_result) delete_request
           (fresh_server empty_interrupt_result) empty_interrupt_result 1 1
           eq_refl eq_refl eq_refl eq_refl).
Defined.

Lemma interruption_defaults_witness :
  interruption_payload (B := plain_builtins) bare_interrupt
  = Ok (PyDict
          [("response", PyStr "<value>");
           ("interruption",
            PyDict [("type", PyStr "unknown");
                    ("message", PyStr "Approve?");
                    ("args", PyDict [])])]).
Proof.
  exact (interruption_defaults (W := constant_workflow plain_result)
           bare_interrupt [("description", PyStr "Approve?")] []
           eq_refl eq_refl).
Defined.

(** ** Resuming and the chat history *)

Section ResumeFacts.
Context `{W : Workflow}.
Variable resume_workflow :
  string -> value -> World -> result WorkflowResult * World.
Variable get_recent_messages :
  string -> Z -> World -> result (list StoredMessage) * World.

(** X17: [resume_agent] never raises and never reports an interruption.
    Whatever the resumed workflow does, a second interrupt included, the
    answer is a [ChatResponse] or a 500 [JSONResponse], neither with an
    "interruption" entry, and the world is as the workflow left it. *)
Theorem resume_never_raises_nor_interrupts session_id action (w : World) :
  exists response,
    fst (resume_agent resume_workflow session_id action w) = Ok response
    /\ (http_status (Ok response) = 200%Z \/ http_status (Ok response) = 500%Z)
    /\ (forall key, interruption_field key (Ok response) = None)
    /\ snd (resume_agent resume_workflow session_id action w)
       = snd (resume_workflow session_id action w).
Proof.
  unfold resume_agent.
  destruct (resume_workflow session_id action w) as [[r|e] w'].
  - destruct (extract_final_response r) as [text|e]; simpl; eexists;
      (split; [reflexivity|]); (split; [auto|]); split; reflexivity.
  - simpl; eexists;
      (split; [reflexivity|]); (split; [auto|]); split; reflexivity.
Qed.

(** X18: the history answer is consistent with what the manager returned:
    "message_count" is the number of entries whatever [limit] was, entry [k]
    carries the type and the content of message [k], and a failure of the
    manager is raised as [HTTPException(500)]. *)
Theorem get_chat_history_counts_entries session_id limit (w : World) :
  match get_recent_messages session_id limit w with
  | (Ok messages, w') =>
      exists entries,
        get_chat_history get_recent_messages session_id limit w
        = (Ok (PyDict
                 [("session_id", PyStr session_id);
                  ("message_count", PyInt (Z.of_nat (length messages)));
                  ("messages", PyList entries)]),
           w')
        /\ length entries = length messages
        /\ forall k msg,
             nth_error messages k = Some msg ->
             exists entry,
               nth_error entries k = Some (PyDict entry)
               /\ lookup "type" entry = Some (PyStr (message_type (stored msg)))
               /\ lookup "content" entry = Some (PyStr (content (stored msg)))
  | (Raise e, w') =>
      fst (get_chat_history get_recent_messages session_id limit w)
      = Raise (HTTPException 500
                 ("Failed to retrieve chat history: " ++ exn_str e)%string)
  end.
Proof.
  unfold get_chat_history.
  destruct (get_recent_messages session_id limit w) as [[messages|e] w'];
    [|reflexivity].
  exists (map history_entry messages). rewrite length_map.
  split; [reflexivity|]. split; [reflexivity|].
  intros k msg Hk. eexists. split.
  - rewrite nth_error_map, Hk. reflexivity.
  - split; reflexivity.
Qed.

End ResumeFacts.

(** ** More on the agent graph *)

Section GraphFacts.
Context `{T : Agent.Toolbox}.

Lemma function_call_as_tool_calls_single last calls :
  Agent.function_call_as_tool_calls last = Ok calls ->
  exists name arguments, calls = [ToolCallObject name arguments].
Proof.
  unfold Agent.function_call_as_tool_calls.
  destruct (getitem _ _) as [func_call|]; [|discriminate].
  destruct (get func_call _ _) as [source|]; [|discriminate].
  destruct (Agent.loads source) as [arguments|]; [|discriminate].
  destruct (getitem func_call "name") as [name|]; [|discriminate].
  intros [= <-]. eauto.
Qed.

(** What a returning [call_tools] has done: nothing, when the last message
    asks for no tool, or the loop over a non-empty list of calls. *)
Lemma call_tools_cases state db state' db' :
  Agent.call_tools state db = (Ok state', db') ->
  exists last,
    Agent.last_message state = Ok last
    /\ ((state' = state /\ db' = db
         /\ Agent.nonempty_calls (tool_calls last) = false
         /\ Agent.has_function_call last = false)
        \/ (exists call calls tool_results,
              (Agent.nonempty_calls (tool_calls last) = true
               \/ Agent.has_function_call last = true)
              /\ Agent.run_tool_calls (call :: calls) db
                 = (Ok tool_results, db')
              /\ Agent.messages state'
                 = Agent.messages state ++ tool_results)).
Proof.
  intros H. unfold Agent.call_tools, bind, lift in H.
  destruct (Agent.last_message state) as [last|e]; [|discriminate].
  exists last. split; [reflexivity|].
  assert (Hloop : forall tool_calls,
             match tool_calls with
             | Some (tool_call :: rest) =>
                 fun s =>
                   match Agent.run_tool_calls (tool_call :: rest) s with
                   | (Ok a, s') =>
                       ret (Agent.mkState (Agent.messages state ++ a)) s'
                   | (Raise e, s') => (Raise e, s')
                   end
             | _ => ret state
             end db = (Ok state', db') ->
             (state' = state /\ db' = db
              /\ Agent.nonempty_calls tool_calls = false)
             \/ (exists call calls tool_results,
                   tool_calls = Some (call :: calls)
                   /\ Agent.run_tool_calls (call :: calls) db
                      = (Ok tool_results, db')
                   /\ Agent.messages state'
                      = Agent.messages state ++ tool_results)).
  { intros [[|call calls]|] Hc.
    - inversion Hc; subst. now left.
    - right.
      destruct (Agent.run_tool_calls (call :: calls) db)
        as [[rs|e] db1] eqn:E; [|discriminate].
      inversion Hc; subst. now exists call, calls, rs.
    - inversion Hc; subst. now left. }
  destruct (Agent.nonempty_calls (tool_calls last)) eqn:En;
    [|destruct (Agent.has_function_call last) eqn:Ef].
  - apply (Hloop (tool_calls last)) in H.
    destruct H as [(_ & _ & Hn) | (c & cs & rs & _ & Hr & Hm)];
      [congruence|].
    right. exists c, cs, rs. auto.
  - change (negb false && true) with true in H. cbv beta match in H.
    destruct (Agent.function_call_as_tool_calls last) as [cs|e] eqn:Ec;
      [|discriminate].
    destruct (function_call_as_tool_calls_single _ _ Ec) as (n & a & ->).
    apply (Hloop (Some [ToolCallObject n a])) in H.
    destruct H as [(_ & _ & Hn) | (c & cs & rs & _ & Hr & Hm)];
      [discriminate Hn|].
    right. exists c, cs, rs. auto.
  - apply (Hloop (tool_calls last)) in H.
    destruct H as [(-> & -> & Hn) | (c & cs & rs & Htc & _ & _)].
    + left. auto.
    + rewrite Htc in En. discriminate En.
Qed.

Lemma last_message_snoc ms m :
  Agent.last_message (Agent.mkState (ms ++ [m])) = Ok m.
Proof.
  unfold Agent.last_message. simpl. now rewrite rev_app_distr.
Qed.

Lemma agent_graph_unfold fuel state :
  Agent.agent_graph (S fuel) state
  = (state1 <- Agent.call_model state ;;
     next <- lift (Agent.check_tool_needed state1) ;;
     if String.eqb next "tools" then
       match fuel with
       | O => raise GraphRecursionError
       | S fuel' =>
           state2 <- Agent.call_tools state1 ;;
           Agent.agent_graph fuel' state2
       end
     else ret state1).
Proof. reflexivity. Qed.

(** The log of a graph run that returns: the given log, what the rounds
    added, and last the system message with the response that asked for no
    tool. *)
Lemma agent_graph_shape fuel :
  forall state db state' db',
    Agent.agent_graph fuel state db = (Ok state', db') ->
    exists added response,
      Agent.messages state'
      = Agent.messages state ++ added ++ [Agent.system_message; response]
      /\ has_tool_calls response = false
      /\ Agent.has_function_call response = false.
Proof.
  induction fuel as [fuel IH] using lt_wf_ind.
  intros state db state' db' H.
  destruct fuel as [|fuel]; [discriminate H|].
  rewrite agent_graph_unfold in H.
  unfold bind at 1 in H. unfold Agent.call_model, bind at 1 in H.
  destruct (Agent.llm_ainvoke (Agent.messages state ++ [Agent.system_message])
              db) as [[response|e] db1]; [|discriminate H].
  unfold ret at 1 in H. unfold bind at 1, lift in H.
  unfold Agent.check_tool_needed in H.
  rewrite last_message_snoc in H.
  destruct (has_tool_calls response || Agent.has_function_call response)
    eqn:Eneed.
  - simpl in H. destruct fuel as [|fuel]; [discriminate H|].
    unfold bind in H.
    destruct (Agent.call_tools _ db1) as [[state2|e] db2] eqn:Ec;
      [|discriminate H].
    apply call_tools_cases in Ec as (last & _ & Hc).
    assert (Hext : exists rs, Agent.messages state2
                     = ((Agent.messages state ++ [Agent.system_message])
                          ++ [response]) ++ rs).
    { destruct Hc as [(-> & _) | (c & cs & rs & _ & _ & ->)].
      - exists []. simpl. now rewrite app_nil_r.
      - now exists rs. }
    destruct Hext as [rs Hrs].
    destruct (IH fuel (Nat.lt_trans _ _ _ (Nat.lt_succ_diag_r fuel)
                         (Nat.lt_succ_diag_r (S fuel)))
                state2 db2 state' db' H)
      as (added & resp' & Hm & Ht & Hf).
    exists ([Agent.system_message; response] ++ rs ++ added), resp'.
    split; [|now split].
    rewrite Hm, Hrs. now rewrite <- !app_assoc.
  - simpl in H. inversion H; subst. exists [], response.
    apply orb_false_iff in Eneed as [Ht Hf].
    split; [|now split]. simpl. now rewrite <- app_assoc.
Qed.

(** X19: the agent graph only appends, and it ends on a response that asks
    for no tool.  When a run returns, its log is the given log followed by
    what the rounds added, the system message and the last response of the
    model, which has neither tool calls nor a function call. *)
Theorem agent_graph_appends_and_ends_on_answer fuel state db state' db' :
  Agent.agent_graph fuel state db = (Ok state', db') ->
  exists added response,
    Agent.messages state'
    = Agent.messages state ++ added ++ [Agent.system_message; response]
    /\ has_tool_calls response = false
    /\ Agent.has_function_call response = false.
Proof. apply agent_graph_shape. Qed.

(** X20: what [ecommerce_assistant] answers.  When it returns, the answer is
    the content of the last response of the model if that is not blank, and
    otherwise the text of the system prompt, which stands just before it in
    the log; the apology "Sorry, I could not process your request." is never
    reached. *)
Theorem ecommerce_assistant_answer message db answer db' :
  Agent.ecommerce_assistant message db = (Ok answer, db') ->
  exists state response,
    Agent.agent_graph Agent.recursion_limit (Agent.mkState [human message]) db
    = (Ok state, db')
    /\ Agent.last_message state = Ok response
    /\ answer = (if nonblank response then content response
                 else content Agent.system_message)
    /\ nonblank (human answer) = true.
Proof.
  unfold Agent.ecommerce_assistant, bind.
  destruct (Agent.agent_graph _ _ db) as [[state|e] db1] eqn:E;
    [|discriminate].
  intros [= <- <-].
  exists state.
  apply agent_graph_shape in E as (added & response & Hm & _ & _).
  exists response. split; [reflexivity|].
  unfold Agent.final_answer, Agent.last_message. rewrite Hm.
  rewrite !app_assoc. rewrite rev_app_distr. simpl.
  rewrite has_text_nonblank. split; [reflexivity|].
  destruct (nonblank response) eqn:En; split; auto.
Qed.

(** X21: [check_tool_needed] and [call_tools] agree.  A state routed to
    "end" comes back from [call_tools] as it is; a state routed to "tools",
    when [call_tools] returns, has gained at least one tool result, so a
    round through the tools never leaves the log as it was. *)
Theorem routing_matches_tool_dispatch state :
  (Agent.check_tool_needed state = Ok "end" ->
   forall db, Agent.call_tools state db = (Ok state, db))
  /\ (Agent.check_tool_needed state = Ok "tools" ->
      forall db state' db',
        Agent.call_tools state db = (Ok state', db') ->
        exists tool_result tool_results,
          Agent.messages state'
          = Agent.messages state ++ tool_result :: tool_results).
Proof.
  split.
  - intros H db. unfold Agent.check_tool_needed in H.
    destruct (Agent.last_message state) as [last|e] eqn:El; [|discriminate].
    destruct (check_tool_needed_end state last El) as [Hn Hf].
    { unfold Agent.check_tool_needed. now rewrite El. }
    now apply (call_tools_without_calls state last).
  - intros H db state' db' Hc.
    apply call_tools_cases in Hc as (last & El & Hc).
    unfold Agent.check_tool_needed in H. rewrite El in H.
    destruct Hc as [(_ & _ & Hn & Hf) | (c & cs & rs & _ & Hr & ->)].
    + unfold has_tool_calls in H. unfold Agent.nonempty_calls in Hn.
      rewrite Hf in H. destruct (tool_calls last) as [[|? ?]|];
        discriminate.
    + apply run_tool_calls_results in Hr as [_ Hl].
      destruct rs as [|r rs]; [discriminate Hl|]. now exists r, rs.
Qed.

Lemma run_tool_calls_app calls1 calls2 : forall db,
  Agent.run_tool_calls (calls1 ++ calls2) db
  = match Agent.run_tool_calls calls1 db with
    | (Ok results1, db1) =>
        match Agent.run_tool_calls calls2 db1 with
        | (Ok results2, db2) => (Ok (results1 ++ results2), db2)
        | (Raise e, db2) => (Raise e, db2)
        end
    | (Raise e, db1) => (Raise e, db1)
    end.
Proof.
  induction calls1 as [|call calls1 IH]; intros db; simpl.
  - unfold ret. now destruct (Agent.run_tool_calls calls2 db) as [[?|?] ?].
  - unfold bind, ret. destruct (Agent.dispatch call db) as [[res|e] db0];
      [|reflexivity].
    rewrite IH.
    destruct (Agent.run_tool_calls calls1 db0) as [[rs1|e] db1];
      [|reflexivity].
    destruct (Agent.run_tool_calls calls2 db1) as [[rs2|e] db2];
      reflexivity.
Qed.

(** X22: a failing call stops the loop and loses the results so far.  When
    the calls before [call] have run and [call] raises, the loop raises the
    same exception in the database state of that moment: the later calls do
    not run, the earlier results are not returned, and the effects of the
    earlier tools on the database stay. *)
Theorem failing_call_stops_the_loop before call after db results db1 e db2 :
  Agent.run_tool_calls before db = (Ok results, db1) ->
  Agent.dispatch call db1 = (Raise e, db2) ->
  Agent.run_tool_calls (before ++ call :: after) db = (Raise e, db2).
Proof.
  intros Hb Hc. rewrite run_tool_calls_app, Hb. simpl.
  unfold bind. now rewrite Hc.
Qed.

End GraphFacts.

Lemma agent_graph_appends_and_ends_on_answer_witness :
  exists added response,
    [human "show product 1"; Agent.system_message;
     function_call_message "ViewProduct";
     Agent.tool_result "Product: Mug, Price: 5, Stock: 3";
     Agent.system_message; ai "  " IsNone]
    = [human "show product 1"] ++ added ++ [Agent.system_message; response]
    /\ has_tool_calls response = false
    /\ Agent.has_function_call response = false.
Proof.
  exact (agent_graph_appends_and_ends_on_answer (T := asking_toolbox) 25
           (Agent.mkState [human "show product 1"]) 0
           (Agent.mkState
              [human "show product 1"; Agent.system_message;
               function_call_message "ViewProduct";
               Agent.tool_result "Product: Mug, Price: 5, Stock: 3";
               Agent.system_message; ai "  " IsNone])
           1 eq_refl).
Defined.

Lemma ecommerce_assistant_answer_witness :
  exists state response,
    Agent.agent_graph (T := asking_toolbox) 25
      (Agent.mkState [human "show product 1"]) 0
    = (Ok state, 1)
    /\ Agent.last_message state = Ok response
    /\ content Agent.system_message
       = (if nonblank response then content response
          else content Agent.system_message)
    /\ nonblank (human (content Agent.system_message)) = true.
Proof.
  exact (ecommerce_assistant_answer (T := asking_toolbox) "show product 1" 0
           (content Agent.system_message) 1 eq_refl).
Defined.

Lemma routing_matches_tool_dispatch_witness :
  Agent.call_tools (T := counting_toolbox)
    (Agent.mkState [human "hello"; ai "Hi!" IsNone]) 0
  = (Ok (Agent.mkState [human "hello"; ai "Hi!" IsNone]), 0)
  /\ exists tool_result tool_results,
       [human "Show product 1"; function_call_message "ViewProduct";
        Agent.tool_result "Product not found."]
       = [human "Show product 1"; function_call_message "ViewProduct"]
           ++ tool_result :: tool_results.
Proof.
  split.
  - apply (proj1 (routing_matches_tool_dispatch (T := counting_toolbox)
                    (Agent.mkState [human "hello"; ai "Hi!" IsNone]))
             eq_refl 0).
  - apply (proj2 (routing_matches_tool_dispatch (T := counting_toolbox)
                    (Agent.mkState
                       [human "Show product 1";
                        function_call_message "ViewProduct"]))
             eq_refl 0
             (Agent.mkState
                [human "Show product 1"; function_call_message "ViewProduct";
                 Agent.tool_result "Product not found."])
             1 eq_refl).
Defined.

Lemma failing_call_stops_the_loop_witness :
  Agent.run_tool_calls (T := counting_toolbox)
    ([ToolCallObject (PyStr "ViewProduct") (PyDict [("product_id", PyInt 1)])]
       ++ ToolCallObject (PyStr "PlaceOrder") (PyDict [])
       :: [ToolCallObject (PyStr "AddToCart") (PyDict [])])
    0
  = (Raise (Exception "no database"), 2).
Proof.
  apply (failing_call_stops_the_loop (T := counting_toolbox)
           [ToolCallObject (PyStr "ViewProduct")
              (PyDict [("product_id", PyInt 1)])]
           (ToolCallObject (PyStr "PlaceOrder") (PyDict []))
           [ToolCallObject (PyStr "AddToCart") (PyDict [])]
           0 [Agent.tool_result "Product not found."] 1
           (Exception "no database") 2);
    reflexivity.
Defined.

(** ** The function specs given to the model *)

Lemma string_typed_keys (declared : dict) :
  map fst (ToolSpec.string_typed declared) = map fst declared.
Proof.
  unfold ToolSpec.string_typed. rewrite map_map. reflexivity.
Qed.

Lemma string_typed_values (declared : dict) k v :
  In (k, v) (ToolSpec.string_typed declared) ->
  v = PyDict [("type", PyStr "string")].
Proof.
  unfold ToolSpec.string_typed. rewrite in_map_iff.
  intros (item & [= _ <-] & _). reflexivity.
Qed.

(** X23: every parameter is announced to the model as a string.  The spec
    built by [tool_to_openai_function] lists the fields of the schema of the
    tool, in their order and none when the tool has no schema, and gives
    each the type "string" whatever type the schema declares. *)
Theorem every_parameter_is_announced_as_string (tool : ToolSpec.t) :
  exists announced,
    ToolSpec.announced_properties (ToolSpec.tool_to_openai_function tool)
    = Some announced
    /\ map fst announced = map fst (ToolSpec.declared_properties tool)
    /\ forall k v, In (k, v) announced -> v = PyDict [("type", PyStr "string")].
Proof.
  unfold ToolSpec.tool_to_openai_function, ToolSpec.declared_properties.
  eexists. split; [reflexivity|]. split.
  - rewrite string_typed_keys.
    destruct (ToolSpec.args_schema tool) as [schema|]; reflexivity.
  - apply string_typed_values.
Qed.

(** ** The Magento client settings *)

Lemma lower_char_letter (c : ascii) :
  (Ascii.eqb (PyStr.lower_char c) "f" = Ascii.eqb c "f" || Ascii.eqb c "F")
  /\ (Ascii.eqb (PyStr.lower_char c) "a" = Ascii.eqb c "a" || Ascii.eqb c "A")
  /\ (Ascii.eqb (PyStr.lower_char c) "l" = Ascii.eqb c "l" || Ascii.eqb c "L")
  /\ (Ascii.eqb (PyStr.lower_char c) "s" = Ascii.eqb c "s" || Ascii.eqb c "S")
  /\ (Ascii.eqb (PyStr.lower_char c) "e" = Ascii.eqb c "e" || Ascii.eqb c "E").
Proof.
  destruct c as [[] [] [] [] [] [] [] []]; vm_compute; repeat split.
Qed.

(** [c] is the letter [l] in lower or upper case [u]. *)
Lemma eqb_either (c l u : ascii) :
  Ascii.eqb c l || Ascii.eqb c u = true <-> c = l \/ c = u.
Proof.
  rewrite orb_true_iff, !Ascii.eqb_eq. reflexivity.
Qed.

(** X24: what switches the verification of certificates off.  The client is
    built with [verify_ssl=False] exactly when MAGENTO_VERIFY_SSL is the word
    "false" in any mix of upper and lower case, with nothing around it; "0",
    "no", the empty string or " false" leave the verification on. *)
Theorem verify_ssl_is_off_only_for_false (s : string) :
  Magento.not_false (PyStr s) = Ok false
  <-> exists c1 c2 c3 c4 c5 : ascii,
        s = String c1 (String c2 (String c3 (String c4 (String c5 ""))))
        /\ (c1 = "f" \/ c1 = "F")%char
        /\ (c2 = "a" \/ c2 = "A")%char
        /\ (c3 = "l" \/ c3 = "L")%char
        /\ (c4 = "s" \/ c4 = "S")%char
        /\ (c5 = "e" \/ c5 = "E")%char.
Proof.
  unfold Magento.not_false. split.
  - intros [= H]. apply negb_false_iff in H. apply String.eqb_eq in H.
    destruct s as [|c1 [|c2 [|c3 [|c4 [|c5 [|c6 s]]]]]]; try discriminate H.
    injection H as H1 H2 H3 H4 H5.
    apply Ascii.eqb_eq in H1, H2, H3, H4, H5.
    destruct (lower_char_letter c1) as (E1 & _).
    destruct (lower_char_letter c2) as (_ & E2 & _).
    destruct (lower_char_letter c3) as (_ & _ & E3 & _).
    destruct (lower_char_letter c4) as (_ & _ & _ & E4 & _).
    destruct (lower_char_letter c5) as (_ & _ & _ & _ & E5).
    rewrite E1 in H1. rewrite E2 in H2. rewrite E3 in H3.
    rewrite E4 in H4. rewrite E5 in H5.
    apply eqb_either in H1, H2, H3, H4, H5.
    exists c1, c2, c3, c4, c5. auto 10.
  - intros (c1 & c2 & c3 & c4 & c5 & -> & H1 & H2 & H3 & H4 & H5).
    f_equal. apply negb_false_iff. apply String.eqb_eq.
    destruct (lower_char_letter c1) as (E1 & _).
    destruct (lower_char_letter c2) as (_ & E2 & _).
    destruct (lower_char_letter c3) as (_ & _ & E3 & _).
    destruct (lower_char_letter c4) as (_ & _ & _ & E4 & _).
    destruct (lower_char_letter c5) as (_ & _ & _ & _ & E5).
    apply eqb_either in H1, H2, H3, H4, H5.
    rewrite H1 in E1. rewrite H2 in E2. rewrite H3 in E3.
    rewrite H4 in E4. rewrite H5 in E5.
    apply Ascii.eqb_eq in E1, E2, E3, E4, E5.
    simpl. now rewrite E1, E2, E3, E4, E5.
Qed.

(** X25: the client needs all six settings.  [get_magento_client] returns
    exactly when each of the six variables is in [env_vars] and
    MAGENTO_VERIFY_SSL is a string, and then passes the other five on as
    they are; a missing variable raises [KeyError], a flag that is no string
    [AttributeError]. *)
Theorem get_magento_client_needs_all_settings (env_vars : dict) :
  match Magento.get_magento_client env_vars with
  | Ok client =>
      lookup "MAGENTO_BASE_URL" env_vars = Some (Magento.base_url client)
      /\ lookup "MAGENTO_CONSUMER_KEY" env_vars
         = Some (Magento.consumer_key client)
      /\ lookup "MAGENTO_CONSUMER_SECRET" env_vars
         = Some (Magento.consumer_secret client)
      /\ lookup "MAGENTO_ACCESS_TOKEN" env_vars
         = Some (Magento.access_token client)
      /\ lookup "MAGENTO_ACCESS_TOKEN_SECRET" env_vars
         = Some (Magento.access_token_secret client)
      /\ exists flag,
           lookup "MAGENTO_VERIFY_SSL" env_vars = Some (PyStr flag)
           /\ Magento.not_false (PyStr flag) = Ok (Magento.verify_ssl client)
  | Raise KeyError =>
      exists k, In k Magento.required_settings /\ lookup k env_vars = None
  | Raise AttributeError =>
      (forall k, In k Magento.required_settings -> mem k env_vars = true)
      /\ exists flag,
           lookup "MAGENTO_VERIFY_SSL" env_vars = Some flag
           /\ forall s, flag <> PyStr s
  | Raise _ => False
  end.
Proof.
  unfold Magento.get_magento_client, and_then, getitem,
    Magento.required_settings.
  destruct (lookup "MAGENTO_BASE_URL" env_vars) as [v1|] eqn:E1.
  2: { exists "MAGENTO_BASE_URL". split; [simpl; tauto|assumption]. }
  destruct (lookup "MAGENTO_CONSUMER_KEY" env_vars) as [v2|] eqn:E2.
  2: { exists "MAGENTO_CONSUMER_KEY". split; [simpl; tauto|assumption]. }
  destruct (lookup "MAGENTO_CONSUMER_SECRET" env_vars) as [v3|] eqn:E3.
  2: { exists "MAGENTO_CONSUMER_SECRET". split; [simpl; tauto|assumption]. }
  destruct (lookup "MAGENTO_ACCESS_TOKEN" env_vars) as [v4|] eqn:E4.
  2: { exists "MAGENTO_ACCESS_TOKEN". split; [simpl; tauto|assumption]. }
  destruct (lookup "MAGENTO_ACCESS_TOKEN_SECRET" env_vars) as [v5|] eqn:E5.
  2: { exists "MAGENTO_ACCESS_TOKEN_SECRET".
       split; [simpl; tauto|assumption]. }
  destruct (lookup "MAGENTO_VERIFY_SSL" env_vars) as [v6|] eqn:E6.
  2: { exists "MAGENTO_VERIFY_SSL". split; [simpl; tauto|assumption]. }
  assert (Hall : forall k,
             In k ["MAGENTO_BASE_URL"; "MAGENTO_CONSUMER_KEY";
                   "MAGENTO_CONSUMER_SECRET"; "MAGENTO_ACCESS_TOKEN";
                   "MAGENTO_ACCESS_TOKEN_SECRET"; "MAGENTO_VERIFY_SSL"] ->
             mem k env_vars = true).
  { intros k [<-|[<-|[<-|[<-|[<-|[<-|[]]]]]]]; unfold mem;
      now rewrite ?E1, ?E2, ?E3, ?E4, ?E5, ?E6. }
  destruct v6 as [| | |flag| |]; simpl;
    try (split; [exact Hall|]; eexists; split; [reflexivity|discriminate]).
  repeat split. now exists flag.
Qed.

(** ** The session guard on the streaming route *)

Section StreamGuard.
Context `{W : Workflow}.

(** C7: on the streaming route the guard does not answer 400.  For a request
    whose session identifier is missing or empty, [chat_with_agent_stream]
    raises [HTTPException(400)] inside a [try] whose one clause
    [except Exception] catches it, and answers with status 500 and the text
    of that exception; no workflow runs and the server is as it was.  Both
    [chat_with_agent] handlers, which have the clause
    [except HTTPException: raise], answer the same request with 400. *)
Theorem stream_guard_answers_500_not_400 (request : ChatRequest) (s : Server) :
  session_id request = None \/ session_id request = Some "" ->
  BackendRoutes.chat_with_agent_stream request s
  = (Ok (JSONResponse 500
           (PyDict
              [("error",
                PyStr (exn_str (HTTPException 400 "session_id is required")));
               ("response",
                PyStr "Internal server error occurred during streaming.")])),
     s)
  /\ http_status (fst (BackendRoutes.chat_with_agent_stream request s))
     = 500%Z
  /\ http_status (fst (ModulesRoutes.chat_with_agent request s)) = 400%Z
  /\ http_status (fst (BackendRoutes.chat_with_agent request s)) = 400%Z
  /\ snd (ModulesRoutes.chat_with_agent request s) = s
  /\ snd (BackendRoutes.chat_with_agent request s) = s.
Proof.
  intros H.
  destruct (chat_rejects_missing_session_id request s H)
    as (Hm & Hb & Hsm & Hsb).
  apply session_id_missing_or_empty in H.
  unfold BackendRoutes.chat_with_agent_stream. rewrite H, Hm, Hb.
  repeat split; reflexivity.
Qed.

End StreamGuard.

Lemma stream_guard_answers_500_not_400_witness :
  http_status
    (fst (BackendRoutes.chat_with_agent_stream
            (W := constant_workflow plain_result)
            (mkRequest None "stock of SKU123?") (fresh_server plain_result)))
  = 500%Z
  /\ snd (BackendRoutes.chat_with_agent_stream
            (W := constant_workflow plain_result)
            (mkRequest (Some "") "stock of SKU123?")
            (fresh_server plain_result))
     = fresh_server plain_result
  /\ http_status
       (fst (ModulesRoutes.chat_with_agent
               (W := constant_workflow plain_result)
               (mkRequest None "stock of SKU123?")
               (fresh_server plain_result)))
     = 400%Z.
Proof.
  split; [|split].
  - apply (stream_guard_answers_500_not_400
             (W := constant_workflow plain_result)
             (mkRequest None "stock of SKU123?") (fresh_server plain_result)).
    left. reflexivity.
  - destruct (stream_guard_answers_500_not_400
                (W := constant_workflow plain_result)
                (mkRequest (Some "") "stock of SKU123?")
                (fresh_server plain_result) (or_intror eq_refl)) as [E _].
    now rewrite E.
  - apply (stream_guard_answers_500_not_400
             (W := constant_workflow plain_result)
             (mkRequest None "stock of SKU123?") (fresh_server plain_result)).
    left. reflexivity.
Defined.
